(** * DiscordStore: the persistence layer of matrix-appservice-discord

    A shallow embedding of [src/store.ts]: the schema migration runner
    ([init]), the schema version tracker ([getSchemaVersion],
    [setSchemaVersion]), the backup service ([backupDatabase]), the token
    lookup ([getToken]) and the generic record gateway ([Get], [Insert],
    [Update], [Delete]).

    Every method of the class is an [async] function.  The store awaits
    each call before it issues the next one, so an [async] method is
    embedded as a state transformer that ends either resolved with a value
    or rejected with the thrown value; the state is kept on rejection,
    since a JavaScript [throw] undoes no effect.  Calls to the logger have
    no effect on the store and are left out. *)

From Stdlib Require Import ZArith List String Bool Lia.
From stdpp Require Import gmap strings.
From Equations Require Import Equations.
Import ListNotations.

Local Open Scope string_scope.
Local Open Scope Z_scope.
Local Open Scope list_scope.

(** ** Promises and thrown values *)

(** A thrown JavaScript value: the name of its constructor and its message. *)
Record JsError : Type := mkJsError { err_name : string; err_message : string }.

(** [Error(msg)] and the [TypeError] raised by a property read on
    [undefined] or [null]. *)
Definition Error (msg : string) : JsError := mkJsError "Error" msg.
Definition TypeError (msg : string) : JsError := mkJsError "TypeError" msg.

(** How an awaited promise settles. *)
Inductive Outcome (A : Type) : Type :=
| Resolved (a : A)
| Rejected (ex : JsError).
Arguments Resolved {A} a.
Arguments Rejected {A} ex.

(** An asynchronous computation over a state [S]. *)
Definition Async (S A : Type) : Type := S -> Outcome A * S.

Definition ret {S A} (a : A) : Async S A := fun s => (Resolved a, s).

Definition throw {S A} (ex : JsError) : Async S A := fun s => (Rejected ex, s).

Definition bind {S A B} (m : Async S A) (k : A -> Async S B) : Async S B :=
  fun s =>
    match m s with
    | (Resolved a, s') => k a s'
    | (Rejected ex, s') => (Rejected ex, s')
    end.

(** [try { m } catch (ex) { handler ex }] *)
Definition try_catch {S A} (m : Async S A) (handler : JsError -> Async S A)
  : Async S A :=
  fun s =>
    match m s with
    | (Resolved a, s') => (Resolved a, s')
    | (Rejected ex, s') => handler ex s'
    end.

Notation "'await' x <- m ; k" := (bind m (fun x => k))
  (at level 10, x name, m at level 100, k at level 200,
   format "'[v' 'await'  x  <-  m ; '/' k ']'").
Notation "'await_' m ; k" := (bind m (fun _ => k))
  (at level 10, m at level 100, k at level 200,
   format "'[v' 'await_'  m ; '/' k ']'").

(** ** The connector interface ([IDatabaseConnector]) *)

(** A value bound to a statement parameter. *)
Inductive SqlValue : Type :=
| SqlNumber (n : Z)
| SqlText (s : string).

Definition ISqlCommandParameters : Type := list (string * SqlValue).

(** A row handed back by the connector: the columns the store reads, at
    the types the source casts them to ([row.version as number],
    [row.token as string], [row.discord_id as string]). *)
Record Row : Type := mkRow {
  row_version : Z;
  row_token : string;
  row_discord_id : string
}.

(** The statements of [store.ts]; runs of white space in the template
    literals are written as one space. *)
Definition SELECT_VERSION : string := "SELECT version FROM schema".
Definition UPDATE_VERSION : string := "UPDATE schema SET version = $ver".
Definition SELECT_TOKEN : string :=
  "SELECT token FROM discord_id_token WHERE discord_id = $discordId".

Module Connector.
(** The connector is an interface whose implementations (SQLite3,
    Postgres) are outside this file.  [W] is the state of the world
    behind it.  [Get] resolves with [None] when no row matches. *)
Record t (W : Type) : Type := mk {
  Open : W -> Outcome unit * W;
  Close : W -> Outcome unit * W;
  Exec : string -> W -> Outcome unit * W;
  Run : string -> ISqlCommandParameters -> W -> Outcome unit * W;
  Get : string -> ISqlCommandParameters -> W -> Outcome (option Row) * W;
  All : string -> ISqlCommandParameters -> W -> Outcome (list Row) * W
}.
Arguments mk {W}.
Arguments Open {W}.
Arguments Close {W}.
Arguments Exec {W}.
Arguments Run {W}.
Arguments Get {W}.
Arguments All {W}.
End Connector.

(** ** The store object *)

(** [DiscordBridgeConfigDatabase]: both fields may be unset. *)
Record DiscordBridgeConfigDatabase : Type := mkConfig {
  filename : option string;
  connString : option string
}.

(** JavaScript truthiness of an optional string: set and not empty. *)
Definition truthy (o : option string) : bool :=
  match o with
  | Some s => negb (String.eqb s EmptyString)
  | None => false
  end.

(** [DbRoomStore] and [DbUserStore] wrap the connector they are built on. *)
Record DbRoomStore (W : Type) : Type := mkDbRoomStore { room_db : Connector.t W }.
Record DbUserStore (W : Type) : Type := mkDbUserStore { user_db : Connector.t W }.
Arguments mkDbRoomStore {W}.
Arguments mkDbUserStore {W}.

(** The fields of a [DiscordStore]; [db] is [undefined] until
    [openDatabase] has run. *)
Record DiscordStore (W : Type) : Type := mkStore {
  config : DiscordBridgeConfigDatabase;
  db : option (Connector.t W);
  pRoomStore : option (DbRoomStore W);
  pUserStore : option (DbUserStore W)
}.
Arguments mkStore {W}.
Arguments config {W}.
Arguments db {W}.
Arguments pRoomStore {W}.
Arguments pUserStore {W}.

(** [new DiscordStore(configOrFile)] *)
Definition new_DiscordStore {W} (configOrFile : DiscordBridgeConfigDatabase + string)
  : DiscordStore W :=
  match configOrFile with
  | inr file => mkStore (mkConfig (Some file) None) None None None
  | inl cfg => mkStore cfg None None None
  end.

(** ** External collaborators of the store *)

Module Schema.
(** [IDbSchema]: one migration step.  [run] and [rollBack] receive the
    store and act on the world behind its connector. *)
Record t (W : Type) : Type := mk {
  description : string;
  run : DiscordStore W -> W -> Outcome unit * W;
  rollBack : DiscordStore W -> W -> Outcome unit * W
}.
Arguments mk {W}.
Arguments description {W}.
Arguments run {W}.
Arguments rollBack {W}.
End Schema.

Module DbData.
(** [IDbData] together with its constructor: a record kind [T].
    [RunQuery] fills in the instance it is called on; [Result] tells
    whether the query found data. *)
Record class (W T : Type) : Type := mk {
  new : T;
  RunQuery : DiscordStore W -> ISqlCommandParameters -> T -> W -> Outcome T * W;
  Insert : DiscordStore W -> T -> W -> Outcome unit * W;
  Update : DiscordStore W -> T -> W -> Outcome unit * W;
  Delete : DiscordStore W -> T -> W -> Outcome unit * W;
  Result : T -> bool
}.
Arguments mk {W T}.
Arguments new {W T}.
Arguments RunQuery {W T}.
Arguments Insert {W T}.
Arguments Update {W T}.
Arguments Delete {W T}.
Arguments Result {W T}.
End DbData.

Definition CURRENT_SCHEMA : Z := 10.
Definition SCHEMA_ROOM_STORE_REQUIRED : Z := 8.
Definition SCHEMA_USER_STORE_REQUIRED : Z := 9.

Section Store.

(** The world behind the connector, and the directory types of
    matrix-appservice-bridge handed to [init]. *)
Context {W RoomStore UserStore : Type}.

(** What a schema constructor is called with. *)
Inductive Argument : Type :=
| ArgRoomStore (roomStore : option RoomStore)
| ArgUserStore (userStore : option UserStore).

(** [new SQLite3(filename)] and [new Postgres(connString)]. *)
Variable SQLite3 : string -> Connector.t W.
Variable Postgres : string -> Connector.t W.

(** [require(`./db/schema/v${version}.js`).Schema]: the class of the
    step for [version], applied to the constructor's arguments; the
    [require] is rejected when there is no such module. *)
Variable schemaModule : Z -> Outcome (list Argument -> Schema.t W).

(** The calls [init] makes to its collaborators, in the order it makes
    them: a step constructed, a forward or rollback action ended
    ([true]: it resolved), [setSchemaVersion] entered. *)
Inductive Event : Type :=
| EvNew (version : Z) (args : list Argument)
| EvRun (version : Z) (resolved : bool)
| EvRollBack (version : Z) (resolved : bool)
| EvSetSchemaVersion (ver : Z).

(** The store object, the world behind its connector, and the calls
    made so far (oldest first). *)
Record State : Type := mkState {
  this : DiscordStore W;
  world : W;
  calls : list Event
}.

Definition emit (ev : Event) : Async State unit :=
  fun s => (Resolved tt, mkState (this s) (world s) (calls s ++ [ev])).

(** A call on [this.db]: a [TypeError] while [db] is [undefined]. *)
Definition on_db {A} (call : Connector.t W -> W -> Outcome A * W)
  : Async State A :=
  fun s =>
    match db (this s) with
    | Some conn =>
        let (r, w) := call conn (world s) in
        (r, mkState (this s) w (calls s))
    | None =>
        (Rejected (TypeError "Cannot read properties of undefined"), s)
    end.

(** A call that hands the store to a collaborator. *)
Definition with_store {A} (call : DiscordStore W -> W -> Outcome A * W)
  : Async State A :=
  fun s =>
    let (r, w) := call (this s) (world s) in
    (r, mkState (this s) w (calls s)).

Definition isResolved {A} (r : Outcome A) : bool :=
  match r with Resolved _ => true | Rejected _ => false end.

(** As [with_store], recording how the call ended. *)
Definition traced (ev : bool -> Event)
    (call : DiscordStore W -> W -> Outcome unit * W) : Async State unit :=
  fun s =>
    let (r, w) := call (this s) (world s) in
    (r, mkState (this s) w (calls s ++ [ev (isResolved r)])).

(** *** Schema version tracker *)

Definition getSchemaVersion : Async State Z :=
  let version := 0 in
  try_catch
    (await versionReply <- on_db (fun conn => Connector.Get conn SELECT_VERSION []);
     match versionReply with
     | Some row => ret (row_version row)
     | None => throw (TypeError "Cannot read properties of undefined")
     end)
    (fun er => ret version).

Definition setSchemaVersion (ver : Z) : Async State unit :=
  await_ emit (EvSetSchemaVersion ver);
  on_db (fun conn => Connector.Run conn UPDATE_VERSION [("ver", SqlNumber ver)]).

(** An assignment to fields of [this]. *)
Definition assign (f : DiscordStore W -> DiscordStore W) : Async State unit :=
  fun s => (Resolved tt, mkState (f (this s)) (world s) (calls s)).

Definition read_this : Async State (DiscordStore W) :=
  fun s => (Resolved (this s), s).

(** [this.db.Open()] is not awaited: only what it throws at once is
    caught, and that is what [Connector.Open] stands for here. *)
Definition openDatabase : Async State unit :=
  await self <- read_this;
  await_
    (if truthy (filename (config self)) then
       assign (fun o => mkStore (config o) (option_map SQLite3 (filename (config o)))
                                (pRoomStore o) (pUserStore o))
     else if truthy (connString (config self)) then
       assign (fun o => mkStore (config o) (option_map Postgres (connString (config o)))
                                (pRoomStore o) (pUserStore o))
     else ret tt);
  try_catch
    (await_ on_db Connector.Open;
     await_ assign (fun o => mkStore (config o) (db o)
                                     (option_map mkDbRoomStore (db o)) (pUserStore o));
     assign (fun o => mkStore (config o) (db o)
                              (pRoomStore o) (option_map mkDbUserStore (db o))))
    (fun ex =>
       throw (Error "Couldn't open database. The appservice won't be able to continue.")).

(** *** Migration runner *)

(** The arguments the three branches of [init] hand to the constructor of
    the step [version]. *)
Definition schemaArguments (version : Z)
    (roomStore : option RoomStore) (userStore : option UserStore)
  : list Argument :=
  if version =? SCHEMA_ROOM_STORE_REQUIRED then [ArgRoomStore roomStore]
  else if version =? SCHEMA_USER_STORE_REQUIRED then [ArgUserStore userStore]
  else [].

(** [new schemaClass(...)]: the step the class builds from [args]; the
    call is recorded with the arguments it is made with. *)
Definition construct (version : Z) (schemaClass : list Argument -> Schema.t W)
    (args : list Argument) : Async State (Schema.t W) :=
  await_ emit (EvNew version args);
  ret (schemaClass args).

(** The body of the [while] loop of [init], after [version++].  Versions
    are integers that a JavaScript number holds exactly, so that
    [version++] adds one. *)
Definition upgrade (roomStore : option RoomStore) (userStore : option UserStore)
    (version : Z) : Async State unit :=
  await schemaClass <- (fun s => (schemaModule version, s));
  await schema <-
    (if version =? SCHEMA_ROOM_STORE_REQUIRED then
       construct version schemaClass [ArgRoomStore roomStore]
     else if version =? SCHEMA_USER_STORE_REQUIRED then
       construct version schemaClass [ArgUserStore userStore]
     else
       construct version schemaClass []);
  await_
    try_catch
      (traced (EvRun version) (Schema.run schema))
      (fun ex =>
         await_
           try_catch
             (traced (EvRollBack version) (Schema.rollBack schema))
             (fun ex =>
                throw (Error "Failure to update to latest schema. And failed to rollback."));
         throw (Error "Failure to update to latest schema."));
  setSchemaVersion version.

(** [while (version < targetSchema) { version++; ... }] *)
Equations? migrate (roomStore : option RoomStore) (userStore : option UserStore)
    (targetSchema version : Z) (s : State) : Outcome unit * State
    by wf (Z.to_nat (targetSchema - version)) lt :=
  migrate roomStore userStore targetSchema version s
    with Z_lt_dec version targetSchema := {
    | left _ with upgrade roomStore userStore (version + 1) s := {
        | (Resolved _, s') => migrate roomStore userStore targetSchema (version + 1) s'
        | (Rejected ex, s') => (Rejected ex, s') }
    | right _ => (Resolved tt, s) }.
Proof. lia. Qed.

(** [overrideSchema] defaults to [0], the two stores to [null]. *)
Definition init (overrideSchema : Z)
    (roomStore : option RoomStore) (userStore : option UserStore)
  : Async State unit :=
  await_ openDatabase;
  await version <- getSchemaVersion;
  let targetSchema :=
    if overrideSchema =? 0 then CURRENT_SCHEMA else overrideSchema in
  migrate roomStore userStore targetSchema version.

(** *** Token lookup *)

Definition getToken (discordId : string) : Async State string :=
  try_catch
    (await row <- on_db (fun conn =>
                     Connector.Get conn SELECT_TOKEN [("discordId", SqlText discordId)]);
     ret (match row with
          | Some r => row_token r
          | None => EmptyString
          end))
    (fun err => throw err).

(** *** Generic record gateway *)

(** [Get] resolves with [None] for [null]. *)
Definition Get {T} (dbType : DbData.class W T) (params : ISqlCommandParameters)
  : Async State (option T) :=
  let dType := DbData.new dbType in
  try_catch
    (await filled <- with_store (fun store => DbData.RunQuery dbType store params dType);
     ret (Some filled))
    (fun ex => ret None).

Definition Insert {T} (cls : DbData.class W T) (data : T) : Async State unit :=
  with_store (fun store => DbData.Insert cls store data).

Definition Update {T} (cls : DbData.class W T) (data : T) : Async State unit :=
  with_store (fun store => DbData.Update cls store data).

Definition Delete {T} (cls : DbData.class W T) (data : T) : Async State unit :=
  with_store (fun store => DbData.Delete cls store data).

(** *** Closing, tables and the token tables *)

Definition close : Async State unit := on_db Connector.Close.

(** [`${err}`] for a thrown error: [Error.prototype.toString]. *)
Definition toString (err : JsError) : string :=
  if String.eqb (err_name err) EmptyString then err_message err
  else if String.eqb (err_message err) EmptyString then err_name err
  else String.append (err_name err) (String.append ": " (err_message err)).

Definition createTable (statement tablename : string) : Async State unit :=
  try_catch
    (on_db (fun conn => Connector.Exec conn statement))
    (fun err =>
       throw (Error (String.append "Error creating '"
                       (String.append tablename
                          (String.append "': " (toString err)))))).

(** The statements on the two token tables, white space as for the
    statements above. *)
Definition INSERT_USER_ID : string :=
  "INSERT INTO user_id_discord_id (discord_id,user_id) VALUES ($discordId,$userId);".
Definition INSERT_TOKEN : string :=
  "INSERT INTO discord_id_token (discord_id,token) VALUES ($discordId,$token);".
Definition DELETE_USER_ID : string :=
  "DELETE FROM user_id_discord_id WHERE discord_id = $id;".
Definition DELETE_TOKEN : string :=
  "DELETE FROM discord_id_token WHERE discord_id = $id;".

(** [await Promise.all([this.db.Run(...), this.db.Run(...)])]: both calls
    are made before either is awaited, so the second statement is issued
    whatever becomes of the first; the connector serves them in the order
    they were issued, and the rejection that comes first is the one
    [Promise.all] is rejected with.  With [db] undefined the first call
    throws before anything is issued. *)
Definition all_on_db (first second : Connector.t W -> W -> Outcome unit * W)
  : Async State unit :=
  fun s =>
    match db (this s) with
    | Some conn =>
        let (r1, w1) := first conn (world s) in
        let (r2, w2) := second conn w1 in
        (match r1, r2 with
         | Rejected ex, _ => Rejected ex
         | Resolved _, Rejected ex => Rejected ex
         | Resolved _, Resolved _ => Resolved tt
         end,
         mkState (this s) w2 (calls s))
    | None =>
        (Rejected (TypeError "Cannot read properties of undefined"), s)
    end.

Definition addUserToken (userId discordId token : string) : Async State unit :=
  try_catch
    (all_on_db
       (fun conn => Connector.Run conn INSERT_USER_ID
                      [("discordId", SqlText discordId); ("userId", SqlText userId)])
       (fun conn => Connector.Run conn INSERT_TOKEN
                      [("discordId", SqlText discordId); ("token", SqlText token)]))
    (fun err => throw err).

Definition deleteUserToken (discordId : string) : Async State unit :=
  try_catch
    (all_on_db
       (fun conn => Connector.Run conn DELETE_USER_ID [("$id", SqlText discordId)])
       (fun conn => Connector.Run conn DELETE_TOKEN [("$id", SqlText discordId)]))
    (fun err => throw err).

End Store.

Arguments Argument : clear implicits.
Arguments Event : clear implicits.
Arguments State : clear implicits.

(** [get roomStore()] and [get userStore()]. *)
Definition get_roomStore {W} (this : DiscordStore W) : option (DbRoomStore W) :=
  pRoomStore this.
Definition get_userStore {W} (this : DiscordStore W) : option (DbUserStore W) :=
  pUserStore this.

(** ** Backup service *)

(** The files on disk: path to contents.  Every path can be opened for
    writing and written to, so the write stream of the backup never emits
    [error] on this disk. *)
Abbreviation FileSystem := (gmap string (list Byte.byte)).

Definition ENOENT : JsError := Error "ENOENT: no such file or directory".

(** [fs.access(path, callback)]: the error handed to the callback, [None]
    for [null]. *)
Definition fs_access (path : string) (fs : FileSystem) : option JsError :=
  match fs !! path with
  | Some _ => None
  | None => Some ENOENT
  end.

(** What the two streams emit once [rd.pipe(wr)] is through. *)
Inductive StreamEvent : Type :=
| ReadError (err : JsError)
| WriteError (err : JsError)
| WriteClose.

(** [fs.createReadStream(src)], [fs.createWriteStream(dst)] and
    [rd.pipe(wr)], once they are through.  The write stream opens [dst]
    with flag [w], which creates the file or truncates it; a read stream
    on a missing file emits [error] and nothing is written. *)
Definition pipe_streams (src dst : string) (fs : FileSystem)
  : StreamEvent * FileSystem :=
  match fs !! src with
  | Some bytes => (WriteClose, <[dst := bytes]> fs)
  | None => (ReadError ENOENT, <[dst := []]> fs)
  end.

(** What the promise of [backupDatabase] resolves with. *)
Inductive BackupValue : Type :=
| JsUndefined
| JsTrue.

(** A promise settles once: a later [resolve] or [reject] is ignored. *)
Definition settle {A} (first : option (Outcome A)) (later : Outcome A) : Outcome A :=
  match first with
  | Some o => o
  | None => later
  end.

(** [backupDatabase]: how its promise settles, and the disk at that
    moment.  With no backup in place [resolve(true)] is called before the
    streams are created, and there is no [return]: the promise is settled
    with the disk as it was, and the copy is made after that
    ([backupDatabase_finished]).  With a backup in place the promise is
    settled by the streams, when the copy is through. *)
Definition backupDatabase {W} (this : DiscordStore W)
  : Async FileSystem BackupValue :=
  match filename (config this) with
  | None => ret JsUndefined
  | Some file =>
      if String.eqb file ":memory:" then ret JsUndefined
      else
        let BACKUP_NAME := String.append file ".backup" in
        await result <- (fun fs =>
                           (Resolved (match fs_access BACKUP_NAME fs with
                                      | None => true
                                      | Some _ => false
                                      end), fs));
        fun fs =>
          let early := if negb result then Some (Resolved JsTrue) else None in
          let (ev, fs') := pipe_streams file BACKUP_NAME fs in
          (settle early
                  (match ev with
                   | ReadError err => Rejected err
                   | WriteError err => Rejected err
                   | WriteClose => Resolved JsUndefined
                   end),
           match early with
           | Some _ => fs
           | None => fs'
           end)
  end.

(** The disk once the streams a call of [backupDatabase] has created are
    through, nothing else writing in between. *)
Definition backupDatabase_finished {W} (this : DiscordStore W) (fs : FileSystem)
  : FileSystem :=
  match filename (config this) with
  | None => fs
  | Some file =>
      if String.eqb file ":memory:" then fs
      else snd (pipe_streams file (String.append file ".backup") fs)
  end.

(** ** What a run of the migration loop looks like *)

Section Runs.

Context {W RoomStore UserStore : Type}.
Variable SQLite3 : string -> Connector.t W.
Variable Postgres : string -> Connector.t W.
Variable schemaModule : Z -> Outcome (list (Argument RoomStore UserStore) -> Schema.t W).
Variable roomStore : option RoomStore.
Variable userStore : option UserStore.

Local Abbreviation Event := (Event RoomStore UserStore).
Local Abbreviation State := (State W RoomStore UserStore).

(** The step an event belongs to. *)
Definition event_version (ev : Event) : Z :=
  match ev with
  | EvNew version _ => version
  | EvRun version _ => version
  | EvRollBack version _ => version
  | EvSetSchemaVersion ver => ver
  end.

(** The versions handed to [setSchemaVersion], in call order. *)
Fixpoint setVersions (evs : list Event) : list Z :=
  match evs with
  | [] => []
  | EvSetSchemaVersion ver :: rest => ver :: setVersions rest
  | _ :: rest => setVersions rest
  end.

Definition ROLLED_BACK : JsError := Error "Failure to update to latest schema.".
Definition ROLLBACK_FAILED : JsError :=
  Error "Failure to update to latest schema. And failed to rollback.".

(** The four ways one pass through the loop body can go, with the
    promise it ends in and the calls it makes. *)
Inductive upgraded (version : Z) : Outcome unit -> list Event -> Prop :=
| upgraded_no_module ex :
    upgraded version (Rejected ex) []
| upgraded_committed r :
    upgraded version r
      [EvNew version (schemaArguments version roomStore userStore);
       EvRun version true; EvSetSchemaVersion version]
| upgraded_rolled_back :
    upgraded version (Rejected ROLLED_BACK)
      [EvNew version (schemaArguments version roomStore userStore);
       EvRun version false; EvRollBack version true]
| upgraded_fatal :
    upgraded version (Rejected ROLLBACK_FAILED)
      [EvNew version (schemaArguments version roomStore userStore);
       EvRun version false; EvRollBack version false].

(** A run of the loop from [version]: it stops at the target, or goes
    through one more step and on, or is cut short by a rejected step. *)
Inductive migrated (targetSchema : Z) : Z -> Outcome unit -> list Event -> Prop :=
| migrated_done version :
    ~ version < targetSchema ->
    migrated targetSchema version (Resolved tt) []
| migrated_step version evs r evs' :
    version < targetSchema ->
    upgraded (version + 1) (Resolved tt) evs ->
    migrated targetSchema (version + 1) r evs' ->
    migrated targetSchema version r (evs ++ evs')
| migrated_abort version ex evs :
    version < targetSchema ->
    upgraded (version + 1) (Rejected ex) evs ->
    migrated targetSchema version (Rejected ex) evs.

(** The version [init] starts from: what [getSchemaVersion] reads once
    the database is open. *)
Definition startVersion (s : State) : Z :=
  match fst (getSchemaVersion (snd (openDatabase SQLite3 Postgres s))) with
  | Resolved version => version
  | Rejected _ => 0
  end.

Definition targetOf (overrideSchema : Z) : Z :=
  if overrideSchema =? 0 then CURRENT_SCHEMA else overrideSchema.

Definition COULD_NOT_OPEN : JsError :=
  Error "Couldn't open database. The appservice won't be able to continue.".

(** On the databases that satisfy [before], the [UPDATE] of
    [setSchemaVersion ver] resolves into a database that satisfies
    [after]. *)
Definition persists (conn : Connector.t W) (before after : W -> Prop) (ver : Z)
  : Prop :=
  forall w : W,
    before w ->
    exists w',
      Connector.Run conn UPDATE_VERSION [("ver", SqlNumber ver)] w = (Resolved tt, w') /\
      after w'.

(** On the databases that satisfy [at_version], the [SELECT] of
    [getSchemaVersion] yields a row holding [ver]. *)
Definition reads_back (conn : Connector.t W) (at_version : W -> Prop) (ver : Z)
  : Prop :=
  forall w : W,
    at_version w ->
    exists row w',
      Connector.Get conn SELECT_VERSION [] w = (Resolved (Some row), w') /\
      row_version row = ver.

(** The step for [version] can be loaded, and on the databases that
    satisfy [before] the forward action of the step, built from the
    arguments [init] hands to its constructor and run on [store], resolves
    into a database that satisfies [after]. *)
Definition forward_succeeds (store : DiscordStore W) (before after : W -> Prop)
    (version : Z) : Prop :=
  exists schemaClass,
    schemaModule version = Resolved schemaClass /\
    forall w : W,
      before w ->
      exists w',
        Schema.run (schemaClass (schemaArguments version roomStore userStore)) store w
          = (Resolved tt, w') /\
        after w'.

(** The versions of the steps constructed, in call order. *)
Fixpoint newVersions (evs : list Event) : list Z :=
  match evs with
  | [] => []
  | EvNew version _ :: rest => version :: newVersions rest
  | _ :: rest => newVersions rest
  end.

End Runs.

(** ** An in-memory connector

    A connector over two tables held in memory, on which the store can be
    run on concrete inputs. *)

Module MemoryDb.

(** [schema]: the [version] column of the control table, [None] while
    the table does not exist.  [discord_id_token]: the rows of the
    token table, [(discord_id, token)]. *)
Record world : Type := mk {
  schema : option (list Z);
  discord_id_token : list (string * string)
}.

Definition no_such_table : JsError := Error "no such table".
Definition syntax_error : JsError := Error "syntax error".

Definition text_param (name : string) (params : ISqlCommandParameters) : string :=
  match find (fun p => String.eqb (fst p) name) params with
  | Some (_, SqlText s) => s
  | _ => EmptyString
  end.

Definition number_param (name : string) (params : ISqlCommandParameters) : Z :=
  match find (fun p => String.eqb (fst p) name) params with
  | Some (_, SqlNumber n) => n
  | _ => 0
  end.

Definition Get (sql : string) (params : ISqlCommandParameters) (w : world)
  : Outcome (option Row) * world :=
  if String.eqb sql SELECT_VERSION then
    match schema w with
    | None => (Rejected no_such_table, w)
    | Some [] => (Resolved None, w)
    | Some (v :: _) => (Resolved (Some (mkRow v EmptyString EmptyString)), w)
    end
  else if String.eqb sql SELECT_TOKEN then
    let id := text_param "discordId" params in
    match find (fun r => String.eqb (fst r) id) (discord_id_token w) with
    | Some (_, tok) => (Resolved (Some (mkRow 0 tok id)), w)
    | None => (Resolved None, w)
    end
  else (Rejected syntax_error, w).

Definition Run (sql : string) (params : ISqlCommandParameters) (w : world)
  : Outcome unit * world :=
  if String.eqb sql UPDATE_VERSION then
    match schema w with
    | None => (Rejected no_such_table, w)
    | Some rows =>
        (Resolved tt,
         mk (Some (map (fun _ => number_param "ver" params) rows))
            (discord_id_token w))
    end
  else (Rejected syntax_error, w).

Definition connector (file : string) : Connector.t world :=
  Connector.mk
    (fun w => (Resolved tt, w))
    (fun w => (Resolved tt, w))
    (fun _ w => (Rejected syntax_error, w))
    Run
    Get
    (fun _ _ w => (Rejected syntax_error, w)).

(** A step that changes nothing, and one whose forward action fails. *)
Definition step_ok : Schema.t world :=
  Schema.mk "no change" (fun _ w => (Resolved tt, w)) (fun _ w => (Resolved tt, w)).

Definition step_failing (rollback_ok : bool) : Schema.t world :=
  Schema.mk "fails"
    (fun _ w => (Rejected (Error "forward action failed"), w))
    (fun _ w =>
       (if rollback_ok then Resolved tt else Rejected (Error "rollback failed"), w)).

(** The first step creates the control table, as a fresh database has
    none. *)
Definition step_create : Schema.t world :=
  Schema.mk "create the control table"
    (fun _ w => (Resolved tt, mk (Some [0]) (discord_id_token w)))
    (fun _ w => (Resolved tt, mk None (discord_id_token w))).

(** Steps 1 to 10, [bad] failing with the given rollback result. *)
Definition modules {R U : Type} (bad : Z) (rollback_ok : bool) (version : Z)
  : Outcome (list (Argument R U) -> Schema.t world) :=
  if (version <? 1) || (10 <? version) then
    Rejected (Error "Cannot find module")
  else if version =? bad then Resolved (fun _ => step_failing rollback_ok)
  else if version =? 1 then Resolved (fun _ => step_create)
  else Resolved (fun _ => step_ok).

(** A store built on a file name, before and after [openDatabase]. *)
Definition store (file : string) : DiscordStore world :=
  new_DiscordStore (inr file).

Definition opened (file : string) : DiscordStore world :=
  mkStore (mkConfig (Some file) None)
          (Some (connector file))
          (Some (mkDbRoomStore (connector file)))
          (Some (mkDbUserStore (connector file))).

(** [init] on the store of [discord.db], with stores [1] and [2] as the
    two directories and no call made yet. *)
Definition init_on (bad : Z) (rollback_ok : bool) (overrideSchema : Z) (w : world)
  : Outcome unit * State world nat nat :=
  init connector connector (modules bad rollback_ok) overrideSchema
       (Some 1%nat) (Some 2%nat) (mkState (store "discord.db") w []).

(** A record kind over the control table: [found] is its [Result]. *)
Record DbVersion : Type := mkDbVersion { found : bool; value : Z }.

Definition DbVersionClass : DbData.class world DbVersion :=
  DbData.mk
    (mkDbVersion false 0)
    (fun store params inst w =>
       match db store with
       | None => (Rejected (TypeError "Cannot read properties of undefined"), w)
       | Some conn =>
           match Connector.Get conn SELECT_VERSION params w with
           | (Resolved (Some row), w') =>
               (Resolved (mkDbVersion true (row_version row)), w')
           | (Resolved None, w') => (Resolved (mkDbVersion false (value inst)), w')
           | (Rejected ex, w') => (Rejected ex, w')
           end
       end)
    (fun store inst w =>
       match db store with
       | None => (Rejected (TypeError "Cannot read properties of undefined"), w)
       | Some conn =>
           Connector.Run conn UPDATE_VERSION [("ver", SqlNumber (value inst))] w
       end)
    (fun store inst w =>
       match db store with
       | None => (Rejected (TypeError "Cannot read properties of undefined"), w)
       | Some conn =>
           Connector.Run conn UPDATE_VERSION [("ver", SqlNumber (value inst))] w
       end)
    (fun store inst w => (Rejected syntax_error, w))
    found.

(** A step that reads the control table through the connector of the
    store it is run on: it fails on a store that is not open and on a
    database without control table. *)
Definition step_checked : Schema.t world :=
  Schema.mk "reads the control table"
    (fun store w =>
       match db store with
       | None => (Rejected (TypeError "Cannot read properties of undefined"), w)
       | Some conn =>
           match Connector.Get conn SELECT_VERSION [] w with
           | (Resolved _, w') => (Resolved tt, w')
           | (Rejected ex, w') => (Rejected ex, w')
           end
       end)
    (fun _ w => (Resolved tt, w)).

(** The classes of two steps that need a directory: built without it, the
    step fails. *)
Definition needs_roomStore {R U : Type} (args : list (Argument R U)) : Schema.t world :=
  match args with
  | [ArgRoomStore (Some _)] => step_checked
  | _ => step_failing true
  end.

Definition needs_userStore {R U : Type} (args : list (Argument R U)) : Schema.t world :=
  match args with
  | [ArgUserStore (Some _)] => step_checked
  | _ => step_failing true
  end.

(** Steps 1 to 10 that build on one another: step 1 creates the control
    table, steps 8 and 9 need their directory, and every step after the
    first reads the control table through the store. *)
Definition bridge_modules {R U : Type} (version : Z)
  : Outcome (list (Argument R U) -> Schema.t world) :=
  if (version <? 1) || (10 <? version) then
    Rejected (Error "Cannot find module")
  else if version =? 1 then Resolved (fun _ => step_create)
  else if version =? 8 then Resolved needs_roomStore
  else if version =? 9 then Resolved needs_userStore
  else Resolved (fun _ => step_checked).

(** The database once version [v] is written: no control table at version
    0, the row [v] otherwise; and once the forward action of step [v] has
    run: the row of the version before. *)
Definition committed (v : Z) (w : world) : Prop :=
  schema w = if v =? 0 then None else Some [v].

Definition applied (v : Z) (w : world) : Prop :=
  schema w = Some [v - 1].

End MemoryDb.

(** ** An in-memory connector for the token tables *)

Module TokenDb.

(** The rows of [user_id_discord_id], [(discord_id, user_id)], and of
    [discord_id_token], [(discord_id, token)]; [discord_id] is a key of
    both tables. *)
Record world : Type := mk {
  user_id_discord_id : list (string * string);
  discord_id_token : list (string * string)
}.

Definition constraint_failed : JsError := Error "UNIQUE constraint failed".

Definition has_key (id : string) (rows : list (string * string)) : bool :=
  existsb (fun r => String.eqb (fst r) id) rows.

Definition without (id : string) (rows : list (string * string))
  : list (string * string) :=
  filter (fun r => negb (String.eqb (fst r) id)) rows.

Definition Run (sql : string) (params : ISqlCommandParameters) (w : world)
  : Outcome unit * world :=
  if String.eqb sql INSERT_USER_ID then
    let id := MemoryDb.text_param "discordId" params in
    if has_key id (user_id_discord_id w) then (Rejected constraint_failed, w)
    else (Resolved tt,
          mk (user_id_discord_id w ++ [(id, MemoryDb.text_param "userId" params)])
             (discord_id_token w))
  else if String.eqb sql INSERT_TOKEN then
    let id := MemoryDb.text_param "discordId" params in
    if has_key id (discord_id_token w) then (Rejected constraint_failed, w)
    else (Resolved tt,
          mk (user_id_discord_id w)
             (discord_id_token w ++ [(id, MemoryDb.text_param "token" params)]))
  else if String.eqb sql DELETE_USER_ID then
    (Resolved tt,
     mk (without (MemoryDb.text_param "$id" params) (user_id_discord_id w))
        (discord_id_token w))
  else if String.eqb sql DELETE_TOKEN then
    (Resolved tt,
     mk (user_id_discord_id w)
        (without (MemoryDb.text_param "$id" params) (discord_id_token w)))
  else (Rejected MemoryDb.syntax_error, w).

Definition Get (sql : string) (params : ISqlCommandParameters) (w : world)
  : Outcome (option Row) * world :=
  if String.eqb sql SELECT_TOKEN then
    let id := MemoryDb.text_param "discordId" params in
    match find (fun r => String.eqb (fst r) id) (discord_id_token w) with
    | Some (_, tok) => (Resolved (Some (mkRow 0 tok id)), w)
    | None => (Resolved None, w)
    end
  else (Rejected MemoryDb.syntax_error, w).

Definition connector (file : string) : Connector.t world :=
  Connector.mk
    (fun w => (Resolved tt, w))
    (fun w => (Resolved tt, w))
    (fun _ w => (Rejected MemoryDb.syntax_error, w))
    Run
    Get
    (fun _ _ w => (Rejected MemoryDb.syntax_error, w)).

Definition opened (file : string) : DiscordStore world :=
  mkStore (mkConfig (Some file) None)
          (Some (connector file))
          (Some (mkDbRoomStore (connector file)))
          (Some (mkDbUserStore (connector file))).

End TokenDb.

(** ** Facts about runs of the store *)

Section Facts.

Context {W RoomStore UserStore : Type}.
Variable SQLite3 : string -> Connector.t W.
Variable Postgres : string -> Connector.t W.
Variable schemaModule : Z -> Outcome (list (Argument RoomStore UserStore) -> Schema.t W).
Variable roomStore : option RoomStore.
Variable userStore : option UserStore.

Local Abbreviation Event := (Event RoomStore UserStore).
Local Abbreviation State := (State W RoomStore UserStore).

(** The three branches of the loop body construct the step from
    [schemaArguments]. *)
Lemma upgrade_with_arguments
    (modules : Z -> Outcome (list (Argument RoomStore UserStore) -> Schema.t W))
    version (s : State) :
  upgrade modules roomStore userStore version s =
    match modules version with
    | Rejected ex => (Rejected ex, s)
    | Resolved schemaClass =>
        let schema := schemaClass (schemaArguments version roomStore userStore) in
        (await_ emit (EvNew version (schemaArguments version roomStore userStore));
         await_
           try_catch
             (traced (EvRun version) (Schema.run schema))
             (fun ex =>
                await_
                  try_catch
                    (traced (EvRollBack version) (Schema.rollBack schema))
                    (fun ex => throw ROLLBACK_FAILED);
                throw ROLLED_BACK);
         setSchemaVersion version) s
    end.
Proof.
  unfold upgrade, construct, schemaArguments, ROLLBACK_FAILED, ROLLED_BACK.
  unfold bind at 1.
  destruct (modules version) as [schemaClass | ex]; [| reflexivity].
  destruct (version =? SCHEMA_ROOM_STORE_REQUIRED); [reflexivity |].
  destruct (version =? SCHEMA_USER_STORE_REQUIRED); reflexivity.
Qed.




Lemma upgrade_upgraded version (s : State) :
  exists evs,
    calls (snd (upgrade schemaModule roomStore userStore version s)) = calls s ++ evs /\
    upgraded roomStore userStore version (fst (upgrade schemaModule roomStore userStore version s)) evs /\
    this (snd (upgrade schemaModule roomStore userStore version s)) = this s.
Proof.
  rewrite upgrade_with_arguments.
  unfold bind, try_catch, traced, emit, setSchemaVersion, on_db, throw, bind.
  destruct (schemaModule version) as [schemaClass | ex]; cbn.
  - destruct (Schema.run _ (this s) (world s)) as [[[] | ex] w] eqn:Hrun; cbn.
    + destruct (db (this s)) as [conn |]; cbn.
      * destruct (Connector.Run conn _ _ w) as [r w'] eqn:Hupd; cbn.
        eexists; rewrite <- !app_assoc; cbn; repeat split. apply upgraded_committed.
      * eexists; rewrite <- !app_assoc; cbn; repeat split. apply upgraded_committed.
    + destruct (Schema.rollBack _ (this s) w) as [[[] | ex'] w'] eqn:Hrb; cbn;
        eexists; rewrite <- !app_assoc; cbn; repeat split; constructor.
  - exists []. rewrite app_nil_r. repeat split. constructor.
Qed.

Lemma migrate_migrated targetSchema version (s : State) :
  exists evs,
    calls (snd (migrate schemaModule roomStore userStore targetSchema version s))
      = calls s ++ evs /\
    migrated roomStore userStore targetSchema version
      (fst (migrate schemaModule roomStore userStore targetSchema version s)) evs /\
    this (snd (migrate schemaModule roomStore userStore targetSchema version s)) = this s.
Proof.
  funelim (migrate schemaModule roomStore userStore targetSchema version s).
  - exists []. cbn. rewrite app_nil_r. repeat split. now constructor.
  - destruct (upgrade_upgraded (version + 1) s) as (evs & Hcalls & Hup & Hthis).
    match goal with
    | Hu : upgrade _ _ _ _ _ = _ |- _ => rewrite Hu in Hcalls, Hup, Hthis
    end.
    cbn in Hcalls, Hup, Hthis.
    match goal with
    | IH : exists _, _ |- _ => destruct IH as (evs' & Hcalls' & Hmig & Hthis')
    end.
    exists (evs ++ evs'). rewrite Hcalls', Hcalls, app_assoc, Hthis', Hthis.
    repeat split.
    match goal with
    | Hu : upgraded _ _ _ (Resolved ?a) _ |- _ => destruct a
    end.
    now apply migrated_step.
  - destruct (upgrade_upgraded (version + 1) s) as (evs & Hcalls & Hup & Hthis).
    match goal with
    | Hu : upgrade _ _ _ _ _ = _ |- _ => rewrite Hu in Hcalls, Hup, Hthis
    end.
    cbn in Hcalls, Hup, Hthis.
    exists evs. cbn. repeat split; try assumption. now apply migrated_abort.
Qed.

(** [openDatabase] and [getSchemaVersion] make none of the recorded
    calls, and [getSchemaVersion] never rejects. *)
Lemma openDatabase_calls (s : State) :
  calls (snd (openDatabase SQLite3 Postgres s)) = calls s.
Proof.
  unfold openDatabase, bind, try_catch, read_this, assign, on_db, throw, ret.
  destruct (truthy (filename (config (this s)))); cbn.
  - destruct (option_map SQLite3 _) as [conn |]; cbn; [| reflexivity].
    destruct (Connector.Open conn (world s)) as [[[] | ex] w]; reflexivity.
  - destruct (truthy (connString (config (this s)))); cbn.
    + destruct (option_map Postgres _) as [conn |]; cbn; [| reflexivity].
      destruct (Connector.Open conn (world s)) as [[[] | ex] w]; reflexivity.
    + destruct (db (this s)) as [conn |]; cbn; [| reflexivity].
      destruct (Connector.Open conn (world s)) as [[[] | ex] w]; reflexivity.
Qed.

Lemma getSchemaVersion_resolves (s : State) :
  exists version s',
    getSchemaVersion s = (Resolved version, s') /\
    calls s' = calls s /\ this s' = this s.
Proof.
  unfold getSchemaVersion, try_catch, bind, on_db, ret, throw.
  destruct (db (this s)) as [conn |]; cbn.
  - destruct (Connector.Get conn SELECT_VERSION [] (world s)) as [[[row |] | ex] w];
      cbn; eauto.
  - eauto.
Qed.

(** A run of [init] is a failed [openDatabase] or a run of the loop
    from the version read. *)
Lemma init_migrated overrideSchema (s : State) :
  let r := init SQLite3 Postgres schemaModule overrideSchema roomStore userStore s in
  exists evs,
    calls (snd r) = calls s ++ evs /\
    ((fst r = Rejected COULD_NOT_OPEN /\ evs = []) \/
     migrated roomStore userStore (targetOf overrideSchema) (startVersion SQLite3 Postgres s) (fst r) evs).
Proof.
  cbn zeta. unfold init, startVersion, bind.
  pose proof (openDatabase_calls s) as Hopen.
  destruct (openDatabase SQLite3 Postgres s) as [[[] | ex] s1] eqn:Ho; cbn in *.
  - destruct (getSchemaVersion_resolves s1) as (v0 & s2 & Hget & Hcalls & _).
    rewrite Hget. cbn.
    destruct (migrate_migrated (targetOf overrideSchema) v0 s2) as (evs & Hc & Hm & _).
    exists evs. fold (targetOf overrideSchema).
    rewrite Hc, Hcalls, Hopen. split; [reflexivity | now right].
  - exists []. rewrite app_nil_r. split; [assumption |]. left. split; [| reflexivity].
    revert Ho. unfold openDatabase, bind, try_catch, read_this, assign, on_db, throw, ret.
    repeat (match goal with
            | |- context [if ?b then _ else _] => destruct b
            | |- context [match ?o with Some _ => _ | None => _ end] => destruct o
            | |- context [let (_, _) := ?p in _] => destruct p as [[[] | ?] ?]
            end; cbn);
      intros [= <- _] || intros [= _]; reflexivity.
Qed.

(** *** Properties of the calls of a run *)

Lemma setVersions_app (evs evs' : list Event) :
  setVersions (evs ++ evs') = setVersions evs ++ setVersions evs'.
Proof.
  induction evs as [| [] evs IH]; cbn; congruence.
Qed.

Lemma upgraded_resolved version evs :
  upgraded roomStore userStore version (Resolved tt) evs ->
  evs = [EvNew version (schemaArguments version roomStore userStore);
         EvRun version true; EvSetSchemaVersion version].
Proof. inversion 1; reflexivity. Qed.

Lemma upgraded_versions version r evs :
  upgraded roomStore userStore version r evs ->
  forall ev, In ev evs -> event_version ev = version.
Proof.
  destruct 1; cbn; intros ev Hin;
    repeat (destruct Hin as [<- | Hin]; [reflexivity |]); contradiction.
Qed.

Lemma migrated_versions targetSchema version r evs :
  migrated roomStore userStore targetSchema version r evs ->
  forall ev, In ev evs -> version < event_version ev <= targetSchema.
Proof.
  induction 1 as [version Hge | version evs r evs' Hlt Hup Hmig IH
                 | version ex evs Hlt Hup]; intros ev Hin.
  - contradiction.
  - apply in_app_or in Hin as [Hin | Hin].
    + rewrite (upgraded_versions _ _ _ Hup ev Hin). lia.
    + specialize (IH ev Hin). lia.
  - rewrite (upgraded_versions _ _ _ Hup ev Hin). lia.
Qed.

Lemma migrated_resolved targetSchema version evs :
  migrated roomStore userStore targetSchema version (Resolved tt) evs ->
  setVersions evs = seqZ (version + 1) (targetSchema - version).
Proof.
  remember (Resolved tt) as r eqn:Hr.
  induction 1 as [version Hge | version evs r evs' Hlt Hup Hmig IH
                 | version ex evs Hlt Hup].
  - rewrite seqZ_nil by lia. reflexivity.
  - apply upgraded_resolved in Hup. subst evs. cbn.
    rewrite (IH Hr), (seqZ_cons (version + 1)) by lia.
    do 2 f_equal; lia.
  - discriminate.
Qed.

(** A run in which the forward action of step [k] failed: nothing of a
    later step was called, the versions written are those below [k], and
    the run ends with the rollback of [k] and the matching error. *)
Lemma migrated_failed targetSchema version r evs k :
  migrated roomStore userStore targetSchema version r evs ->
  In (EvRun k false) evs ->
  (forall ev, In ev evs -> event_version ev <= k) /\
  setVersions evs = seqZ (version + 1) (k - 1 - version) /\
  exists ok pre,
    evs = pre ++ [EvRun k false; EvRollBack k ok] /\
    r = Rejected (if ok then ROLLED_BACK else ROLLBACK_FAILED) /\
    forall b, In (EvRollBack k b) evs -> b = ok.
Proof.
  induction 1 as [version Hge | version evs r evs' Hlt Hup Hmig IH
                 | version ex evs Hlt Hup]; intros Hin.
  - contradiction.
  - apply upgraded_resolved in Hup. subst evs.
    apply in_app_or in Hin as [Hin | Hin].
    { cbn in Hin. intuition discriminate. }
    pose proof (migrated_versions _ _ _ _ Hmig _ Hin) as Hk. cbn in Hk.
    destruct (IH Hin) as (Hle & Hset & ok & pre & -> & -> & Hrb).
    split; [| split].
    + intros ev [<- | [<- | [<- | Hev]]]; cbn; try lia. now apply Hle.
    + cbn. rewrite Hset, (seqZ_cons (version + 1)) by lia. do 2 f_equal; lia.
    + exists ok, ([EvNew (version + 1) (schemaArguments (version + 1) roomStore userStore);
                   EvRun (version + 1) true; EvSetSchemaVersion (version + 1)] ++ pre).
      split; [now rewrite <- app_assoc | split; [reflexivity |]].
      intros b [Hb | [Hb | [Hb | Hb]]]; try discriminate. now apply Hrb.
  - destruct Hup as [ex' | r | |]; cbn in Hin.
    + contradiction.
    + intuition discriminate.
    + destruct Hin as [Hin | [Hin | [Hin | []]]]; try discriminate.
      injection Hin as <-.
      split; [| split].
      * intros ev [<- | [<- | [<- | []]]]; cbn; lia.
      * cbn. rewrite seqZ_nil by lia. reflexivity.
      * exists true, [EvNew (version + 1) (schemaArguments (version + 1) roomStore userStore)].
        repeat split.
        intros b [Hb | [Hb | [Hb | []]]]; try discriminate. now injection Hb.
    + destruct Hin as [Hin | [Hin | [Hin | []]]]; try discriminate.
      injection Hin as <-.
      split; [| split].
      * intros ev [<- | [<- | [<- | []]]]; cbn; lia.
      * cbn. rewrite seqZ_nil by lia. reflexivity.
      * exists false, [EvNew (version + 1) (schemaArguments (version + 1) roomStore userStore)].
        repeat split.
        intros b [Hb | [Hb | [Hb | []]]]; try discriminate. now injection Hb.
Qed.

Lemma app_split_at {A} (l1 l2 pre post : list A) (x : A) :
  l1 ++ l2 = pre ++ x :: post ->
  (exists l, l1 = pre ++ x :: l) \/
  (exists pre2, pre = l1 ++ pre2 /\ l2 = pre2 ++ x :: post).
Proof.
  revert pre. induction l1 as [| a l1 IH]; intros pre Heq.
  - right. exists pre. split; [reflexivity | exact Heq].
  - destruct pre as [| b pre]; cbn in Heq; injection Heq as -> Heq.
    + left. exists l1. reflexivity.
    + destruct (IH pre Heq) as [[l ->] | (pre2 & -> & ->)].
      * left. exists l. reflexivity.
      * right. exists pre2. split; reflexivity.
Qed.

Lemma upgraded_set_after_run version r evs pre ver post :
  upgraded roomStore userStore version r evs ->
  evs = pre ++ EvSetSchemaVersion ver :: post ->
  exists pre', pre = pre' ++ [EvRun ver true].
Proof.
  intros Hup Heq.
  destruct Hup; destruct pre as [| p1 [| p2 [| p3 pre]]]; cbn in Heq;
    try discriminate; try (destruct pre; discriminate).
  injection Heq as <- <- <- _. eexists [_]. reflexivity.
Qed.

(** In a run, a call of [setSchemaVersion] comes right after the forward
    action of the same step has resolved. *)
Lemma migrated_set_after_run targetSchema version r evs :
  migrated roomStore userStore targetSchema version r evs ->
  forall pre ver post,
    evs = pre ++ EvSetSchemaVersion ver :: post ->
    exists pre', pre = pre' ++ [EvRun ver true].
Proof.
  induction 1 as [version Hge | version evs r evs' Hlt Hup Hmig IH
                 | version ex evs Hlt Hup]; intros pre ver post Heq.
  - destruct pre; discriminate.
  - apply app_split_at in Heq as [[l Heq] | (pre2 & -> & Heq)].
    + eapply upgraded_set_after_run; eassumption.
    + destruct (IH _ _ _ Heq) as [pre' ->].
      exists (evs ++ pre'). now rewrite app_assoc.
  - eapply upgraded_set_after_run; eassumption.
Qed.




(** *** Runs in which every step succeeds *)

Lemma upgrade_succeeds (before applied after : W -> Prop) version conn (s : State) :
  db (this s) = Some conn ->
  before (world s) ->
  forward_succeeds schemaModule roomStore userStore (this s) before applied version ->
  persists conn applied after version ->
  exists s',
    upgrade schemaModule roomStore userStore version s = (Resolved tt, s') /\
    this s' = this s /\
    after (world s').
Proof.
  intros Hdb Hbefore (schemaClass & Hmod & Hrun) Hpersist.
  rewrite upgrade_with_arguments, Hmod. cbn zeta.
  unfold bind, try_catch, traced, emit, setSchemaVersion, bind, emit, on_db. cbn.
  destruct (Hrun (world s) Hbefore) as (w & -> & Hw). cbn.
  destruct (Hpersist w Hw) as (w' & Hupd & Hw').
  rewrite Hdb, Hupd. eexists. repeat split. exact Hw'.
Qed.

Lemma migrate_succeeds (committed applied : Z -> W -> Prop) targetSchema version conn
    (s : State) :
  db (this s) = Some conn ->
  committed version (world s) ->
  (forall v, version < v <= targetSchema ->
             forward_succeeds schemaModule roomStore userStore (this s)
               (committed (v - 1)) (applied v) v) ->
  (forall v, version < v <= targetSchema ->
             persists conn (applied v) (committed v) v) ->
  exists s',
    migrate schemaModule roomStore userStore targetSchema version s = (Resolved tt, s') /\
    this s' = this s /\
    (version <= targetSchema -> committed targetSchema (world s')).
Proof.
  funelim (migrate schemaModule roomStore userStore targetSchema version s);
    intros Hdb Hcommitted Hfwd Hpersist.
  - exists s. repeat split. intros Hle.
    now replace targetSchema with version by lia.
  - destruct (upgrade_succeeds (committed version) (applied (version + 1))
                (committed (version + 1)) (version + 1) conn s Hdb Hcommitted)
      as (s1 & Hup & Hthis & Hcommitted1).
    { replace version with (version + 1 - 1) at 1 by lia. apply Hfwd; lia. }
    { apply Hpersist; lia. }
    match goal with
    | Hu : upgrade _ _ _ _ _ = _ |- _ => rewrite Hu in Hup; injection Hup as -> ->
    end.
    match goal with
    | IH : forall _ _ _, _ -> _ -> _ -> _ -> exists _, _ |- _ =>
        destruct (IH committed applied conn) as (s2 & Hmig & Hthis2 & Hat);
        [congruence | assumption
         | intros; rewrite Hthis; apply Hfwd; lia | intros; apply Hpersist; lia |]
    end.
    exists s2. rewrite Hmig. repeat split; [congruence |].
    intros _. apply Hat. lia.
  - destruct (upgrade_succeeds (committed version) (applied (version + 1))
                (committed (version + 1)) (version + 1) conn s Hdb Hcommitted)
      as (s1 & Hup & _).
    { replace version with (version + 1 - 1) at 1 by lia. apply Hfwd; lia. }
    { apply Hpersist; lia. }
    congruence.
Qed.

Lemma openDatabase_resolved (s s1 : State) :
  openDatabase SQLite3 Postgres s = (Resolved tt, s1) ->
  exists conn, db (this s1) = Some conn.
Proof.
  unfold openDatabase, bind, try_catch, read_this, assign, on_db, throw, ret.
  destruct (truthy (filename (config (this s)))); cbn;
    [| destruct (truthy (connString (config (this s)))); cbn].
  all: match goal with
       | |- context [match ?o with Some _ => _ | None => _ end] =>
           destruct o as [conn |] eqn:Hdb; cbn; [| discriminate]
       end.
  all: destruct (Connector.Open conn (world s)) as [[[] | ex] w]; cbn;
    [intros [= <-]; cbn; eauto | discriminate].
Qed.

Lemma setVersions_In (evs : list Event) ver :
  In (EvSetSchemaVersion ver) evs <-> In ver (setVersions evs).
Proof.
  induction evs as [| ev evs IH]; [reflexivity |].
  destruct ev; cbn; rewrite <- IH; intuition (congruence || discriminate).
Qed.

Lemma init_run overrideSchema store w r (s' : State) :
  init SQLite3 Postgres schemaModule overrideSchema roomStore userStore
       (mkState store w []) = (r, s') ->
  (r = Rejected COULD_NOT_OPEN /\ calls s' = []) \/
  migrated roomStore userStore (targetOf overrideSchema)
    (startVersion SQLite3 Postgres (mkState store w [] : State)) r (calls s').
Proof.
  intros Hinit.
  destruct (init_migrated overrideSchema (mkState store w [] : State))
    as (evs & Hcalls & H).
  rewrite Hinit in Hcalls, H. cbn in Hcalls, H. rewrite Hcalls.
  destruct H as [[Hr ->] | H]; [left | right]; auto.
Qed.

(** *** The migration runner *)

(** C2: let [committed v] say what is known of the database once version
    [v] is written, and [applied v] what is known of it once the forward
    action of step [v] has run.  When the database opens, the version read
    is [v0], below the target, the database is as [committed v0] says, for
    every [v] from [v0 + 1] to the target the step loads, its forward
    action, run on the store with the arguments [init] constructs it
    with, resolves and takes a [committed (v - 1)] database to an
    [applied v] one, and the write of [v] resolves and takes that one to
    a [committed v] one, and the target is read back from a
    [committed target] database, then [init] resolves, the version read
    afterwards is the target, and the versions handed to
    [setSchemaVersion] are [v0 + 1], [v0 + 2], ..., target: each once, in
    increasing order, none skipped. *)
Theorem init_reaches_target (committed applied : Z -> W -> Prop) overrideSchema
    (s0 s1 s2 : State) conn v0 :
  openDatabase SQLite3 Postgres s0 = (Resolved tt, s1) ->
  db (this s1) = Some conn ->
  getSchemaVersion s1 = (Resolved v0, s2) ->
  committed v0 (world s2) ->
  v0 < targetOf overrideSchema ->
  (forall v, v0 < v <= targetOf overrideSchema ->
             forward_succeeds schemaModule roomStore userStore (this s1)
               (committed (v - 1)) (applied v) v) ->
  (forall v, v0 < v <= targetOf overrideSchema ->
             persists conn (applied v) (committed v) v) ->
  reads_back conn (committed (targetOf overrideSchema)) (targetOf overrideSchema) ->
  exists s' evs,
    init SQLite3 Postgres schemaModule overrideSchema roomStore userStore s0
      = (Resolved tt, s') /\
    fst (getSchemaVersion s') = Resolved (targetOf overrideSchema) /\
    calls s' = calls s0 ++ evs /\
    setVersions evs = seqZ (v0 + 1) (targetOf overrideSchema - v0).
Proof.
  intros Hopen Hdb Hget Hcommitted Hlt Hfwd Hpersist Hread.
  destruct (getSchemaVersion_resolves s1) as (v & s2' & Hget' & Hcalls2 & Hthis2).
  rewrite Hget in Hget'. injection Hget' as <- <-.
  destruct (migrate_succeeds committed applied (targetOf overrideSchema) v0 conn s2)
    as (s' & Hmig & Hthis' & Hat);
    [congruence | assumption | now rewrite Hthis2 | assumption |].
  destruct (migrate_migrated (targetOf overrideSchema) v0 s2) as (evs & Hcalls & Hrun & _).
  rewrite Hmig in Hcalls, Hrun. cbn in Hcalls, Hrun.
  exists s', evs. repeat split.
  - unfold init, bind. rewrite Hopen, Hget. exact Hmig.
  - destruct (Hread (world s')) as (row & w' & Hsel & Hrow); [apply Hat; lia |].
    unfold getSchemaVersion, try_catch, bind, on_db, ret.
    replace (db (this s')) with (Some conn) by congruence.
    rewrite Hsel. cbn. now rewrite Hrow.
  - pose proof (openDatabase_calls s0) as Ho. rewrite Hopen in Ho. cbn in Ho.
    congruence.
  - now apply migrated_resolved.
Qed.

(** C3: if in a run of [init] the forward action of step [k] failed and
    its rollback resolved, then [init] is rejected with the error
    "Failure to update to latest schema.", no call was made for a step
    above [k], [setSchemaVersion] was not called for [k], and the
    versions it was called with run from the start version + 1 to
    [k - 1]: the last version written, if any, is [k - 1]. *)
Theorem init_rolls_back overrideSchema store w r (s' : State) k :
  init SQLite3 Postgres schemaModule overrideSchema roomStore userStore
       (mkState store w []) = (r, s') ->
  In (EvRun k false) (calls s') ->
  In (EvRollBack k true) (calls s') ->
  r = Rejected (Error "Failure to update to latest schema.") /\
  (forall ev, In ev (calls s') -> event_version ev <= k) /\
  ~ In (EvSetSchemaVersion k) (calls s') /\
  setVersions (calls s')
    = seqZ (startVersion SQLite3 Postgres (mkState store w [] : State) + 1)
           (k - 1 - startVersion SQLite3 Postgres (mkState store w [] : State)).
Proof.
  intros Hinit Hrun Hrb.
  destruct (init_run overrideSchema store w r s' Hinit) as [[_ Hnil] | Hmig].
  { rewrite Hnil in Hrun. contradiction. }
  destruct (migrated_failed _ _ _ _ k Hmig Hrun)
    as (Hle & Hset & ok & pre & _ & Hr & Hok).
  rewrite <- (Hok true Hrb) in Hr.
  repeat split; try assumption.
  rewrite setVersions_In, Hset, <- list_elem_of_In, elem_of_seqZ. lia.
Qed.

(** C4: if the forward action of step [k] failed and its rollback
    failed too, [init] is rejected with the error "Failure to update to
    latest schema. And failed to rollback.", which is not the error of a
    rolled-back run, and every version handed to [setSchemaVersion] is
    at most [k - 1]. *)
Theorem init_rollback_fails overrideSchema store w r (s' : State) k :
  init SQLite3 Postgres schemaModule overrideSchema roomStore userStore
       (mkState store w []) = (r, s') ->
  In (EvRun k false) (calls s') ->
  In (EvRollBack k false) (calls s') ->
  r = Rejected (Error "Failure to update to latest schema. And failed to rollback.") /\
  r <> Rejected (Error "Failure to update to latest schema.") /\
  (forall ver, In (EvSetSchemaVersion ver) (calls s') -> ver <= k - 1).
Proof.
  intros Hinit Hrun Hrb.
  destruct (init_run overrideSchema store w r s' Hinit) as [[_ Hnil] | Hmig].
  { rewrite Hnil in Hrun. contradiction. }
  destruct (migrated_failed _ _ _ _ k Hmig Hrun)
    as (Hle & Hset & ok & pre & _ & Hr & Hok).
  rewrite <- (Hok false Hrb) in Hr.
  repeat split; try assumption.
  - rewrite Hr. discriminate.
  - intros ver. rewrite setVersions_In, Hset, <- list_elem_of_In, elem_of_seqZ. lia.
Qed.

(** C5: whenever [init] calls [setSchemaVersion ver], the call just
    before it is the forward action of step [ver] ending resolved: no
    version is written before its step has succeeded. *)
Theorem init_persists_after_success overrideSchema store w r (s' : State) pre ver post :
  init SQLite3 Postgres schemaModule overrideSchema roomStore userStore
       (mkState store w []) = (r, s') ->
  calls s' = pre ++ EvSetSchemaVersion ver :: post ->
  exists pre', pre = pre' ++ [EvRun ver true].
Proof.
  intros Hinit Heq.
  destruct (init_run overrideSchema store w r s' Hinit) as [[_ Hnil] | Hmig].
  { rewrite Hnil in Heq. destruct pre; discriminate. }
  eapply migrated_set_after_run; eassumption.
Qed.


(** *** The schema version tracker *)

(** C6: [getSchemaVersion] always resolves: with the version of the row
    when the query yields one, and with [0] when the query is rejected
    or yields no row. *)
Theorem getSchemaVersion_defaults_to_zero (s : State) :
  getSchemaVersion s =
    let reply := on_db (fun conn => Connector.Get conn SELECT_VERSION []) s in
    (Resolved match fst reply with
              | Resolved (Some row) => row_version row
              | Resolved None => 0
              | Rejected _ => 0
              end,
     snd reply).
Proof.
  unfold getSchemaVersion, try_catch, bind, ret, throw. cbn zeta.
  destruct (on_db _ s) as [[[row |] | ex] s']; reflexivity.
Qed.

(** *** The token lookup *)

(** C10: when the query for [discordId] yields no row, [getToken]
    resolves with the empty string, and so it does when the query yields
    a row whose token is empty: the two cannot be told apart. *)
Theorem getToken_absent_is_empty discordId (s s' : State) :
  on_db (fun conn =>
           Connector.Get conn SELECT_TOKEN [("discordId", SqlText discordId)]) s
    = (Resolved None, s') ->
  getToken discordId s = (Resolved EmptyString, s') /\
  forall (t t' : State) row,
    on_db (fun conn =>
             Connector.Get conn SELECT_TOKEN [("discordId", SqlText discordId)]) t
      = (Resolved (Some row), t') ->
    row_token row = EmptyString ->
    fst (getToken discordId t) = fst (getToken discordId s).
Proof.
  intros Hnone. unfold getToken, try_catch, bind, ret, throw.
  rewrite Hnone. split; [reflexivity |].
  intros t t' row Hrow Htok. rewrite Hrow. cbn. now rewrite Htok.
Qed.

(** *** The record gateway *)

(** C7, as the code has it: [Get] resolves with the instance when
    [RunQuery] resolves (also when no row matched), and with [null] when
    [RunQuery] is rejected, whatever the error; so [Get] yields [null]
    exactly when the query raised, and which error it was is lost. *)
Theorem Get_null_iff_query_rejected {T} (dbType : DbData.class W T) params (s : State) :
  let query := DbData.RunQuery dbType (this s) params (DbData.new dbType) (world s) in
  Get dbType params s =
    (match fst query with
     | Resolved filled => Resolved (Some filled)
     | Rejected _ => Resolved None
     end,
     mkState (this s) (snd query) (calls s)) /\
  (fst (Get dbType params s) = Resolved None <-> exists ex, fst query = Rejected ex).
Proof.
  cbn zeta. unfold Get, try_catch, bind, with_store, ret.
  destruct (DbData.RunQuery dbType (this s) params (DbData.new dbType) (world s))
    as [[filled | ex] w']; cbn; split; try reflexivity.
  - split; [discriminate | intros [ex [=]]].
  - split; eauto.
Qed.

(** C8: [Insert], [Update] and [Delete] end as the action of the entity
    ends, with the same value or the same error, and leave the world as
    that action leaves it; [Get] instead turns a rejected [RunQuery]
    into [null]. *)
Theorem writes_propagate {T} (cls : DbData.class W T) (data : T) params (s : State) :
  let after (r : Outcome unit * W) := (fst r, mkState (this s) (snd r) (calls s)) in
  Insert cls data s = after (DbData.Insert cls (this s) data (world s)) /\
  Update cls data s = after (DbData.Update cls (this s) data (world s)) /\
  Delete cls data s = after (DbData.Delete cls (this s) data (world s)) /\
  fst (Get cls params s) =
    match fst (DbData.RunQuery cls (this s) params (DbData.new cls) (world s)) with
    | Resolved filled => Resolved (Some filled)
    | Rejected _ => Resolved None
    end.
Proof.
  cbn zeta. unfold Insert, Update, Delete, Get, with_store, try_catch, bind, ret.
  repeat split.
  - now destruct (DbData.Insert cls (this s) data (world s)).
  - now destruct (DbData.Update cls (this s) data (world s)).
  - now destruct (DbData.Delete cls (this s) data (world s)).
  - now destruct (DbData.RunQuery cls (this s) params (DbData.new cls) (world s))
      as [[? | ?] ?].
Qed.

End Facts.

(** ** The backup service *)

(** Whatever is at the backup path, the streams of [backupDatabase] write
    the database file over it; with a backup in place that is done when
    the promise settles. *)
Lemma backupDatabase_copies {W} (this : DiscordStore W) file bytes (fs : FileSystem) :
  filename (config this) = Some file ->
  file <> ":memory:" ->
  fs !! file = Some bytes ->
  backupDatabase_finished this fs = <[String.append file ".backup" := bytes]> fs /\
  (is_Some (fs !! String.append file ".backup") ->
   snd (backupDatabase this fs) = <[String.append file ".backup" := bytes]> fs).
Proof.
  intros Hfile Hmem Hsrc.
  unfold backupDatabase_finished, backupDatabase, bind, fs_access. rewrite Hfile.
  destruct (String.eqb_spec file ":memory:") as [-> | _]; [contradiction |].
  unfold pipe_streams. rewrite Hsrc. split; [reflexivity |].
  intros [old ->]. reflexivity.
Qed.

(** C1, which the code does not meet: with a backup already in place that
    differs from the database file, [backupDatabase] does not skip the
    copy; the old backup is replaced by the current database file. *)
Theorem backupDatabase_overwrites_existing_backup :
  let store : DiscordStore unit := new_DiscordStore (inr "discord.db") in
  let fs : FileSystem :=
    <["discord.db" := [Byte.x02]]> (<["discord.db.backup" := [Byte.x01]]> ∅) in
  fs !! "discord.db.backup" = Some [Byte.x01] /\
  fst (backupDatabase store fs) = Resolved JsUndefined /\
  snd (backupDatabase store fs) !! "discord.db.backup" = Some [Byte.x02].
Proof.
  cbn zeta. repeat split; vm_compute; reflexivity.
Qed.

(** Two runs with the database file rewritten in between, the second
    started once the copy of the first is through: what the first run
    saved is gone after the second. *)
Example backupDatabase_twice :
  let store : DiscordStore unit := new_DiscordStore (inr "discord.db") in
  let fs0 : FileSystem := <["discord.db" := [Byte.x01]]> ∅ in
  let fs1 := backupDatabase_finished store fs0 in
  let fs2 := snd (backupDatabase store (<["discord.db" := [Byte.x02]]> fs1)) in
  fs1 !! "discord.db.backup" = Some [Byte.x01] /\
  fs2 !! "discord.db.backup" = Some [Byte.x02].
Proof.
  cbn zeta. split; vm_compute; reflexivity.
Qed.

(** With no backup in place the promise resolves with [true], on the
    branch that warns of an existing file, before anything is copied; the
    copy is made all the same. *)
Example backupDatabase_first_run :
  let store : DiscordStore unit := new_DiscordStore (inr "discord.db") in
  let fs : FileSystem := <["discord.db" := [Byte.x02]]> ∅ in
  fst (backupDatabase store fs) = Resolved JsTrue /\
  snd (backupDatabase store fs) !! "discord.db.backup" = None /\
  backupDatabase_finished store fs !! "discord.db.backup" = Some [Byte.x02].
Proof.
  cbn zeta. repeat split; vm_compute; reflexivity.
Qed.

(** ** Runs on the in-memory connector *)

(** A fresh database is taken to version 10 by steps that build on one
    another: step 1 creates the control table, the later steps read it
    through the store, steps 8 and 9 need their directory. *)
Lemma init_reaches_target_witness :
  let s0 := mkState (MemoryDb.store "discord.db") (MemoryDb.mk None []) [] in
  exists s' evs,
    init MemoryDb.connector MemoryDb.connector MemoryDb.bridge_modules 0
         (Some 1%nat) (Some 2%nat) s0 = (Resolved tt, s') /\
    fst (getSchemaVersion s') = Resolved (targetOf 0) /\
    calls s' = calls s0 ++ evs /\
    setVersions evs = seqZ (0 + 1) (targetOf 0 - 0).
Proof.
  cbn zeta.
  apply (init_reaches_target MemoryDb.connector MemoryDb.connector
           MemoryDb.bridge_modules (Some 1%nat) (Some 2%nat)
           MemoryDb.committed MemoryDb.applied 0
           (mkState (MemoryDb.store "discord.db") (MemoryDb.mk None []) [])
           (mkState (MemoryDb.opened "discord.db") (MemoryDb.mk None []) [])
           (mkState (MemoryDb.opened "discord.db") (MemoryDb.mk None []) [])
           (MemoryDb.connector "discord.db") 0).
  - reflexivity.
  - reflexivity.
  - reflexivity.
  - reflexivity.
  - reflexivity.
  - intros v Hv. unfold targetOf, CURRENT_SCHEMA in Hv. cbn in Hv.
    assert (Hcases : v = 1 \/ v = 2 \/ v = 3 \/ v = 4 \/ v = 5 \/
                     v = 6 \/ v = 7 \/ v = 8 \/ v = 9 \/ v = 10) by lia.
    repeat destruct Hcases as [-> | Hcases]; try subst v;
      (eexists; split;
       [reflexivity
       | intros [schema tokens] Hw; unfold MemoryDb.committed in Hw; cbn in Hw;
         subst schema; eexists; split; reflexivity]).
  - intros v Hv [schema tokens] Hw. unfold MemoryDb.applied in Hw. cbn in Hw.
    subst schema. unfold targetOf, CURRENT_SCHEMA in Hv. cbn in Hv.
    eexists. split; [reflexivity |].
    unfold MemoryDb.committed. cbn.
    destruct (Z.eqb_spec v 0); [lia | reflexivity].
  - intros [schema tokens] Hw. unfold MemoryDb.committed in Hw. cbn in Hw.
    subst schema. eexists _, _. split; reflexivity.
Defined.

(** A database at version 7 whose step 9 fails and rolls back. *)
Lemma init_rolls_back_witness :
  let run := MemoryDb.init_on 9 true 0 (MemoryDb.mk (Some [7]) []) in
  In (EvRun 9 false) (calls (snd run)) /\
  In (EvRollBack 9 true) (calls (snd run)) /\
  fst run = Rejected (Error "Failure to update to latest schema.") /\
  (forall ev, In ev (calls (snd run)) -> event_version ev <= 9) /\
  ~ In (EvSetSchemaVersion 9) (calls (snd run)) /\
  setVersions (calls (snd run)) = seqZ (7 + 1) (9 - 1 - 7).
Proof.
  cbn zeta.
  assert (Hrun : In (EvRun 9 false)
                    (calls (snd (MemoryDb.init_on 9 true 0 (MemoryDb.mk (Some [7]) []))))).
  { vm_compute. repeat (first [left; reflexivity | right]). }
  assert (Hrb : In (EvRollBack 9 true)
                   (calls (snd (MemoryDb.init_on 9 true 0 (MemoryDb.mk (Some [7]) []))))).
  { vm_compute. repeat (first [left; reflexivity | right]). }
  split; [exact Hrun | split; [exact Hrb |]].
  exact (init_rolls_back MemoryDb.connector MemoryDb.connector (MemoryDb.modules 9 true)
           (Some 1%nat) (Some 2%nat) 0 (MemoryDb.store "discord.db")
           (MemoryDb.mk (Some [7]) []) _ _ 9 (surjective_pairing _) Hrun Hrb).
Defined.

(** A database at version 7 whose step 9 fails and cannot be rolled back. *)
Lemma init_rollback_fails_witness :
  let run := MemoryDb.init_on 9 false 0 (MemoryDb.mk (Some [7]) []) in
  In (EvRun 9 false) (calls (snd run)) /\
  In (EvRollBack 9 false) (calls (snd run)) /\
  fst run = Rejected (Error "Failure to update to latest schema. And failed to rollback.") /\
  fst run <> Rejected (Error "Failure to update to latest schema.") /\
  (forall ver, In (EvSetSchemaVersion ver) (calls (snd run)) -> ver <= 9 - 1).
Proof.
  cbn zeta.
  assert (Hrun : In (EvRun 9 false)
                    (calls (snd (MemoryDb.init_on 9 false 0 (MemoryDb.mk (Some [7]) []))))).
  { vm_compute. repeat (first [left; reflexivity | right]). }
  assert (Hrb : In (EvRollBack 9 false)
                   (calls (snd (MemoryDb.init_on 9 false 0 (MemoryDb.mk (Some [7]) []))))).
  { vm_compute. repeat (first [left; reflexivity | right]). }
  split; [exact Hrun | split; [exact Hrb |]].
  exact (init_rollback_fails MemoryDb.connector MemoryDb.connector (MemoryDb.modules 9 false)
           (Some 1%nat) (Some 2%nat) 0 (MemoryDb.store "discord.db")
           (MemoryDb.mk (Some [7]) []) _ _ 9 (surjective_pairing _) Hrun Hrb).
Defined.

(** A database at version 7 taken to version 8: the write of 8 follows
    the forward action of step 8. *)
Lemma init_persists_after_success_witness :
  calls (snd (MemoryDb.init_on 0 true 8 (MemoryDb.mk (Some [7]) [])))
    = [EvNew 8 [ArgRoomStore (Some 1%nat)]; EvRun 8 true]
        ++ EvSetSchemaVersion 8 :: [] /\
  exists pre' : list (Event nat nat),
    [EvNew 8 [ArgRoomStore (Some 1%nat)]; EvRun 8 true] = pre' ++ [EvRun 8 true].
Proof.
  assert (Hcalls : calls (snd (MemoryDb.init_on 0 true 8 (MemoryDb.mk (Some [7]) [])))
                   = [EvNew 8 [ArgRoomStore (Some 1%nat)]; EvRun 8 true]
                       ++ EvSetSchemaVersion 8 :: []).
  { vm_compute. reflexivity. }
  split; [exact Hcalls |].
  exact (init_persists_after_success MemoryDb.connector MemoryDb.connector
           (MemoryDb.modules 0 true) (Some 1%nat) (Some 2%nat) 8
           (MemoryDb.store "discord.db") (MemoryDb.mk (Some [7]) []) _ _
           _ 8 _ (surjective_pairing _) Hcalls).
Defined.


(** A token table that knows [123] only, asked for [456]. *)
Lemma getToken_absent_is_empty_witness :
  let s : State MemoryDb.world nat nat :=
    mkState (MemoryDb.opened "discord.db") (MemoryDb.mk (Some [10]) [("123", "secret")]) [] in
  getToken "456" s = (Resolved EmptyString, s) /\
  forall (t t' : State MemoryDb.world nat nat) row,
    on_db (fun conn =>
             Connector.Get conn SELECT_TOKEN [("discordId", SqlText "456")]) t
      = (Resolved (Some row), t') ->
    row_token row = EmptyString ->
    fst (getToken "456" t) = fst (getToken "456" s).
Proof.
  cbn zeta.
  apply (getToken_absent_is_empty "456"
           (mkState (MemoryDb.opened "discord.db")
                    (MemoryDb.mk (Some [10]) [("123", "secret")]) [])).
  reflexivity.
Defined.

(** C7 as claimed fails: on a database without control table the query is
    rejected and [Get] yields [null]; on one whose control table is empty
    no row matches and [Get] yields the instance: the caller of [Get] can
    tell the two apart. *)
Lemma Get_tells_error_from_no_match :
  let cls := MemoryDb.DbVersionClass in
  let s_error : State MemoryDb.world nat nat :=
    mkState (MemoryDb.opened "discord.db") (MemoryDb.mk None []) [] in
  let s_empty : State MemoryDb.world nat nat :=
    mkState (MemoryDb.opened "discord.db") (MemoryDb.mk (Some []) []) [] in
  fst (DbData.RunQuery cls (this s_error) [] (DbData.new cls) (world s_error))
    = Rejected MemoryDb.no_such_table /\
  fst (DbData.RunQuery cls (this s_empty) [] (DbData.new cls) (world s_empty))
    = Resolved (MemoryDb.mkDbVersion false 0) /\
  DbData.Result cls (MemoryDb.mkDbVersion false 0) = false /\
  fst (Get cls [] s_error) = Resolved None /\
  fst (Get cls [] s_empty) = Resolved (Some (MemoryDb.mkDbVersion false 0)) /\
  fst (Get cls [] s_error) <> fst (Get cls [] s_empty).
Proof.
  cbn zeta. repeat split; try reflexivity. discriminate.
Qed.

(** *** The scenarios of the specification *)

(** A fresh database and target 3, all steps succeeding: the version read
    afterwards is 3. *)
Example scenario_fresh_to_3 :
  let run := MemoryDb.init_on 0 true 3 (MemoryDb.mk None []) in
  fst run = Resolved tt /\
  fst (getSchemaVersion (snd run)) = Resolved 3 /\
  setVersions (calls (snd run)) = [1; 2; 3].
Proof. cbn zeta. repeat split; vm_compute; reflexivity. Qed.

(** A database at version 2 whose step 3 throws and rolls back: the
    version read afterwards is still 2. *)
Example scenario_step_3_rolled_back :
  let run := MemoryDb.init_on 3 true 0 (MemoryDb.mk (Some [2]) []) in
  fst run = Rejected (Error "Failure to update to latest schema.") /\
  fst (getSchemaVersion (snd run)) = Resolved 2 /\
  calls (snd run) = [EvNew 3 []; EvRun 3 false; EvRollBack 3 true].
Proof. cbn zeta. repeat split; vm_compute; reflexivity. Qed.

(** A database without control row reads as version 0. *)
Example scenario_no_control_row :
  fst (getSchemaVersion
         (mkState (MemoryDb.opened "discord.db") (MemoryDb.mk (Some []) []) []
          : State MemoryDb.world nat nat)) = Resolved 0.
Proof. reflexivity. Qed.

(** ** More on the backup service *)

Lemma append_length (a b : string) :
  String.length (String.append a b) = (String.length a + String.length b)%nat.
Proof.
  induction a as [| c a IH]; [reflexivity |].
  change (String.append (String c a) b) with (String c (String.append a b)).
  cbn [String.length]. now rewrite IH.
Qed.

Lemma backup_name_differs (file : string) : String.append file ".backup" <> file.
Proof.
  intros Heq. apply (f_equal String.length) in Heq.
  rewrite append_length in Heq. cbn in Heq. lia.
Qed.

(** X1: without a file name, or on the in-memory database, the backup is
    a no-op: the promise resolves and no file is touched. *)
Theorem backupDatabase_not_supported {W} (this : DiscordStore W) (fs : FileSystem) :
  filename (config this) = None \/ filename (config this) = Some ":memory:" ->
  backupDatabase this fs = (Resolved JsUndefined, fs).
Proof.
  unfold backupDatabase. intros [-> | ->]; reflexivity.
Qed.

(** X2: [backupDatabase] writes to the backup path only: every other file
    is as before, and so is the database file itself, when the promise
    settles and once the streams are through alike. *)
Theorem backupDatabase_other_files_untouched {W} (this : DiscordStore W) file
    (fs : FileSystem) :
  filename (config this) = Some file ->
  (snd (backupDatabase this fs) !! file = fs !! file /\
   forall path,
     path <> String.append file ".backup" ->
     snd (backupDatabase this fs) !! path = fs !! path) /\
  (backupDatabase_finished this fs !! file = fs !! file /\
   forall path,
     path <> String.append file ".backup" ->
     backupDatabase_finished this fs !! path = fs !! path).
Proof.
  intros Hfile.
  assert (Hsettled : forall path, path <> String.append file ".backup" ->
                       snd (backupDatabase this fs) !! path = fs !! path).
  { intros path Hpath. unfold backupDatabase, bind, ret. rewrite Hfile.
    destruct (String.eqb file ":memory:"); [reflexivity |].
    unfold pipe_streams.
    destruct (fs_access _ fs); destruct (fs !! file); cbn;
      try reflexivity; now rewrite lookup_insert_ne by congruence. }
  assert (Hfinished : forall path, path <> String.append file ".backup" ->
                        backupDatabase_finished this fs !! path = fs !! path).
  { intros path Hpath. unfold backupDatabase_finished. rewrite Hfile.
    destruct (String.eqb file ":memory:"); [reflexivity |].
    unfold pipe_streams. destruct (fs !! file); cbn;
      now rewrite lookup_insert_ne by congruence. }
  assert (Hne : file <> String.append file ".backup").
  { intros Heq. now apply (backup_name_differs file). }
  repeat split; auto.
Qed.

(** X3: when the database file exists, the backup path holds its bytes
    once the streams of [backupDatabase] are through, whatever was or was
    not there before; with a backup in place it holds them already when
    the promise settles. *)
Theorem backupDatabase_saves_database {W} (this : DiscordStore W) file bytes
    (fs : FileSystem) :
  filename (config this) = Some file ->
  file <> ":memory:" ->
  fs !! file = Some bytes ->
  backupDatabase_finished this fs !! String.append file ".backup" = Some bytes /\
  (is_Some (fs !! String.append file ".backup") ->
   snd (backupDatabase this fs) !! String.append file ".backup" = Some bytes).
Proof.
  intros Hfile Hmem Hsrc.
  unfold backupDatabase_finished, backupDatabase, bind, fs_access. rewrite Hfile.
  destruct (String.eqb_spec file ":memory:") as [-> | _]; [contradiction |].
  unfold pipe_streams. rewrite Hsrc. cbn. split; [apply lookup_insert_eq |].
  intros [old ->]. cbn. apply lookup_insert_eq.
Qed.

(** X4: with the database file and a backup in place, a run started when
    the promise of the run before has settled leaves the files as that
    run left them. *)
Theorem backupDatabase_idempotent {W} (this : DiscordStore W) file (fs : FileSystem) :
  filename (config this) = Some file ->
  is_Some (fs !! file) ->
  is_Some (fs !! String.append file ".backup") ->
  snd (backupDatabase this (snd (backupDatabase this fs)))
    = snd (backupDatabase this fs).
Proof.
  intros Hfile [bytes Hsrc] [old Hbackup].
  unfold backupDatabase, bind, ret, fs_access. rewrite Hfile.
  destruct (String.eqb file ":memory:"); [reflexivity |].
  pose proof (backup_name_differs file) as Hne.
  unfold pipe_streams. rewrite Hbackup, Hsrc. cbn.
  rewrite lookup_insert_eq, lookup_insert_ne, Hsrc by congruence. cbn.
  apply insert_insert_eq.
Qed.

(** X5: how the promise of a file backup settles.  With no backup in place
    it resolves with [true], also when the database file is missing and
    nothing could be copied; with a backup in place it resolves once the
    copy is through, and is rejected with the read error when the database
    file is missing. *)
Theorem backupDatabase_outcome {W} (this : DiscordStore W) file (fs : FileSystem) :
  filename (config this) = Some file ->
  file <> ":memory:" ->
  fst (backupDatabase this fs) =
    match fs !! String.append file ".backup", fs !! file with
    | None, _ => Resolved JsTrue
    | Some _, Some _ => Resolved JsUndefined
    | Some _, None => Rejected ENOENT
    end.
Proof.
  intros Hfile Hmem. unfold backupDatabase, bind, fs_access, pipe_streams, settle.
  rewrite Hfile.
  destruct (String.eqb_spec file ":memory:") as [-> | _]; [contradiction |].
  destruct (fs !! String.append file ".backup"), (fs !! file); reflexivity.
Qed.

(** ** More on the store *)

Section MoreFacts.

Context {W RoomStore UserStore : Type}.
Variable SQLite3 : string -> Connector.t W.
Variable Postgres : string -> Connector.t W.
Variable schemaModule : Z -> Outcome (list (Argument RoomStore UserStore) -> Schema.t W).
Variable roomStore : option RoomStore.
Variable userStore : option UserStore.

Local Abbreviation Event := (Event RoomStore UserStore).
Local Abbreviation State := (State W RoomStore UserStore).

(** *** Opening the database *)

(** The connector [openDatabase] settles on: the file name wins over the
    connection string, and with neither the connector in place is kept. *)
Lemma openDatabase_cases (s : State) :
  let cfg := config (this s) in
  let chosen :=
    if truthy (filename cfg) then option_map SQLite3 (filename cfg)
    else if truthy (connString cfg) then option_map Postgres (connString cfg)
    else db (this s) in
  match chosen with
  | None =>
      openDatabase SQLite3 Postgres s
        = (Rejected COULD_NOT_OPEN,
           mkState (mkStore cfg None (pRoomStore (this s)) (pUserStore (this s)))
                   (world s) (calls s))
  | Some conn =>
      openDatabase SQLite3 Postgres s
        = match Connector.Open conn (world s) with
          | (Resolved _, w) =>
              (Resolved tt,
               mkState (mkStore cfg (Some conn) (Some (mkDbRoomStore conn))
                                (Some (mkDbUserStore conn)))
                       w (calls s))
          | (Rejected _, w) =>
              (Rejected COULD_NOT_OPEN,
               mkState (mkStore cfg (Some conn) (pRoomStore (this s))
                                (pUserStore (this s)))
                       w (calls s))
          end
  end.
Proof.
  cbn zeta.
  unfold openDatabase, bind, try_catch, read_this, assign, on_db, throw, ret,
    COULD_NOT_OPEN.
  destruct (truthy (filename (config (this s)))); cbn;
    [| destruct (truthy (connString (config (this s)))); cbn].
  - destruct (option_map SQLite3 _) as [conn |]; cbn; [| reflexivity].
    destruct (Connector.Open conn (world s)) as [[[] | ex] w]; reflexivity.
  - destruct (option_map Postgres _) as [conn |]; cbn; [| reflexivity].
    destruct (Connector.Open conn (world s)) as [[[] | ex] w]; reflexivity.
  - destruct s as [[cfg [conn |] rooms users] w0 evs]; cbn.
    + destruct (Connector.Open conn w0) as [[[] | ex] w]; reflexivity.
    + reflexivity.
Qed.

Lemma truthy_Some (o : option string) :
  truthy o = true -> exists str, o = Some str /\ str <> EmptyString.
Proof.
  destruct o as [str |]; [| discriminate]. cbn.
  destruct (String.eqb_spec str EmptyString); [discriminate |]. eauto.
Qed.

(** X6: once [openDatabase] has resolved, the store holds a connector and
    both directories are built on that same connector; it is the SQLite
    connector of the file name whenever a file name is configured,
    whatever the connection string, and the Postgres connector of the
    connection string only when no file name is. *)
Theorem openDatabase_selects_connector (s s1 : State) :
  openDatabase SQLite3 Postgres s = (Resolved tt, s1) ->
  exists conn,
    db (this s1) = Some conn /\
    get_roomStore (this s1) = Some (mkDbRoomStore conn) /\
    get_userStore (this s1) = Some (mkDbUserStore conn) /\
    config (this s1) = config (this s) /\
    (forall file, filename (config (this s)) = Some file ->
                  file <> EmptyString -> conn = SQLite3 file) /\
    (forall str, truthy (filename (config (this s))) = false ->
                 connString (config (this s)) = Some str ->
                 str <> EmptyString -> conn = Postgres str).
Proof.
  intros Hopen. pose proof (openDatabase_cases s) as Hcases. cbn zeta in Hcases.
  assert (Hsel : forall conn,
             (if truthy (filename (config (this s)))
              then option_map SQLite3 (filename (config (this s)))
              else if truthy (connString (config (this s)))
                   then option_map Postgres (connString (config (this s)))
                   else db (this s)) = Some conn ->
             (forall file, filename (config (this s)) = Some file ->
                           file <> EmptyString -> conn = SQLite3 file) /\
             (forall str, truthy (filename (config (this s))) = false ->
                          connString (config (this s)) = Some str ->
                          str <> EmptyString -> conn = Postgres str)).
  { intros conn Hc. split.
    - intros file Hfile Hne. rewrite Hfile in Hc. cbn in Hc.
      destruct (String.eqb_spec file EmptyString); [contradiction |].
      cbn in Hc. congruence.
    - intros str Hno Hstr Hne. rewrite Hno, Hstr in Hc. cbn in Hc.
      destruct (String.eqb_spec str EmptyString); [contradiction |].
      cbn in Hc. congruence. }
  destruct (if truthy (filename (config (this s))) then _ else _) as [conn |] eqn:Hc.
  - rewrite Hopen in Hcases.
    destruct (Connector.Open conn (world s)) as [[[] | ex] w]; [| discriminate].
    injection Hcases as ->. exists conn. cbn.
    destruct (Hsel conn eq_refl) as [Hfile Hstr]. repeat split; assumption.
  - rewrite Hopen in Hcases. discriminate.
Qed.

(** X7: when [openDatabase] is rejected, it is with the error "Couldn't
    open database. ..." whatever the connector threw, and the directories
    of the store are as before. *)
Theorem openDatabase_rejects_with_fixed_error (s s1 : State) ex :
  openDatabase SQLite3 Postgres s = (Rejected ex, s1) ->
  ex = Error "Couldn't open database. The appservice won't be able to continue." /\
  get_roomStore (this s1) = get_roomStore (this s) /\
  get_userStore (this s1) = get_userStore (this s) /\
  calls s1 = calls s.
Proof.
  intros Hopen. pose proof (openDatabase_cases s) as Hcases. cbn zeta in Hcases.
  destruct (if truthy (filename (config (this s))) then _ else _) as [conn |].
  - rewrite Hopen in Hcases.
    destruct (Connector.Open conn (world s)) as [[[] | ex'] w]; [discriminate |].
    injection Hcases as -> ->. repeat split.
  - rewrite Hopen in Hcases. injection Hcases as -> ->. repeat split.
Qed.

(** X8: a store with neither file name nor connection string and no
    connector in place cannot be opened, and nothing changes. *)
Theorem openDatabase_unconfigured (s : State) :
  truthy (filename (config (this s))) = false ->
  truthy (connString (config (this s))) = false ->
  db (this s) = None ->
  openDatabase SQLite3 Postgres s
    = (Rejected (Error "Couldn't open database. The appservice won't be able to continue."),
       s).
Proof.
  intros Hfile Hstr Hdb. pose proof (openDatabase_cases s) as Hcases.
  cbn zeta in Hcases. rewrite Hfile, Hstr, Hdb in Hcases. rewrite Hcases.
  f_equal. destruct s as [[cfg d r u] w evs]. cbn in *. now subst d.
Qed.

(** *** More on the migration runner *)

(** X9: when the database cannot be opened, [init] is rejected with the
    error of [openDatabase]; the version is not read and no step is
    constructed. *)
Theorem init_open_failure overrideSchema (s s1 : State) ex :
  openDatabase SQLite3 Postgres s = (Rejected ex, s1) ->
  init SQLite3 Postgres schemaModule overrideSchema roomStore userStore s
    = (Rejected (Error "Couldn't open database. The appservice won't be able to continue."),
       s1) /\
  calls s1 = calls s.
Proof.
  intros Hopen.
  pose proof (openDatabase_calls SQLite3 Postgres s) as Hcalls.
  rewrite Hopen in Hcalls. split; [| exact Hcalls].
  unfold init, bind. rewrite Hopen. f_equal. f_equal.
  pose proof (openDatabase_cases s) as Hcases. cbn zeta in Hcases.
  destruct (if truthy (filename (config (this s))) then _ else _) as [conn |].
  - rewrite Hopen in Hcases.
    destruct (Connector.Open conn (world s)) as [[[] | ex'] w]; [discriminate |].
    now injection Hcases as -> _.
  - rewrite Hopen in Hcases. now injection Hcases as -> _.
Qed.

(** X10: on a database already at the target version or beyond it,
    [init] resolves right after reading the version: no step is
    constructed, nothing is written, no downgrade is attempted. *)
Theorem init_already_current overrideSchema (s0 s1 s2 : State) v0 :
  openDatabase SQLite3 Postgres s0 = (Resolved tt, s1) ->
  getSchemaVersion s1 = (Resolved v0, s2) ->
  targetOf overrideSchema <= v0 ->
  init SQLite3 Postgres schemaModule overrideSchema roomStore userStore s0
    = (Resolved tt, s2) /\
  calls s2 = calls s0.
Proof.
  intros Hopen Hget Hle. split.
  - unfold init, bind. rewrite Hopen, Hget. fold (targetOf overrideSchema).
    simp migrate. destruct (Z_lt_dec v0 (targetOf overrideSchema)); [lia |].
    reflexivity.
  - destruct (getSchemaVersion_resolves s1) as (v & s2' & Hget' & Hcalls & _).
    rewrite Hget in Hget'. injection Hget' as <- <-.
    pose proof (openDatabase_calls SQLite3 Postgres s0) as Ho.
    rewrite Hopen in Ho. cbn in Ho. congruence.
Qed.

Lemma newVersions_app (evs evs' : list Event) :
  newVersions (evs ++ evs') = newVersions evs ++ newVersions evs'.
Proof.
  induction evs as [| [] evs IH]; cbn; congruence.
Qed.

(** In any run from [version], the steps constructed and the versions
    handed to [setSchemaVersion] are consecutive from [version + 1], and
    at most one step has been constructed whose version was not handed
    on. *)
Lemma migrated_progress targetSchema version r evs :
  migrated roomStore userStore targetSchema version r evs ->
  exists n m,
    0 <= n <= m /\ m <= n + 1 /\ m <= Z.max 0 (targetSchema - version) /\
    setVersions evs = seqZ (version + 1) n /\
    newVersions evs = seqZ (version + 1) m.
Proof.
  induction 1 as [version Hge | version evs r evs' Hlt Hup Hmig IH
                 | version ex evs Hlt Hup].
  - exists 0, 0. repeat split; try lia; now rewrite seqZ_nil.
  - apply upgraded_resolved in Hup. subst evs.
    destruct IH as (n & m & Hnm & Hm & Hmax & Hset & Hnew).
    exists (n + 1), (m + 1). repeat split; try lia.
    + cbn. rewrite Hset, (seqZ_cons (version + 1) (n + 1)) by lia.
      do 2 f_equal; lia.
    + cbn. rewrite Hnew, (seqZ_cons (version + 1) (m + 1)) by lia.
      do 2 f_equal; lia.
  - destruct Hup as [ex' | r | |];
      [exists 0, 0 | exists 1, 1 | exists 0, 1 | exists 0, 1];
      repeat split; try lia; cbn;
      rewrite ?(seqZ_cons (version + 1) 1) by lia;
      rewrite ?seqZ_nil by lia; reflexivity.
Qed.

(** In a run, a rollback is the last call, it comes right after the failed
    forward action of the same step, and the version of that step is not
    handed to [setSchemaVersion]. *)
Lemma migrated_rollback_last targetSchema version r evs :
  migrated roomStore userStore targetSchema version r evs ->
  forall pre k b post,
    evs = pre ++ EvRollBack k b :: post ->
    (exists pre', pre = pre' ++ [EvRun k false]) /\
    post = [] /\
    ~ In (EvSetSchemaVersion k) evs.
Proof.
  induction 1 as [version Hge | version evs r evs' Hlt Hup Hmig IH
                 | version ex evs Hlt Hup]; intros pre k b post Heq.
  - destruct pre; discriminate.
  - apply upgraded_resolved in Hup. subst evs.
    apply app_split_at in Heq as [[l Heq] | (pre2 & -> & Heq)].
    + destruct pre as [| p1 [| p2 [| p3 pre]]]; cbn in Heq; try discriminate.
      destruct pre; discriminate.
    + destruct (IH _ _ _ _ Heq) as ([pre' ->] & -> & Hnot).
      assert (Hk : version + 1 < k).
      { assert (Hin : In (EvRollBack k b) evs').
        { rewrite Heq. apply in_or_app. right. now left. }
        pose proof (migrated_versions _ _ _ _ _ _ Hmig _ Hin) as Hv. cbn in Hv. lia. }
      repeat split.
      * eexists. now rewrite app_assoc.
      * intros [Hin | [Hin | [Hin | Hin]]]; try discriminate.
        -- injection Hin as Hin. lia.
        -- now apply Hnot.
  - destruct Hup as [ex' | r | |];
      destruct pre as [| p1 [| p2 [| p3 pre]]]; cbn in Heq;
      try discriminate; try (destruct pre; discriminate).
    + injection Heq as <- <- <- <- <-. repeat split.
      * eexists [_]. reflexivity.
      * cbn. intuition discriminate.
    + injection Heq as <- <- <- <- <-. repeat split.
      * eexists [_]. reflexivity.
      * cbn. intuition discriminate.
Qed.

(** A run that resolves has no failed forward action and no rollback. *)
Lemma migrated_resolved_clean targetSchema version evs :
  migrated roomStore userStore targetSchema version (Resolved tt) evs ->
  forall ev, In ev evs ->
    match ev with
    | EvRun _ resolved => resolved = true
    | EvRollBack _ _ => False
    | _ => True
    end.
Proof.
  remember (Resolved tt) as r eqn:Hr.
  induction 1 as [version Hge | version evs r evs' Hlt Hup Hmig IH
                 | version ex evs Hlt Hup]; intros ev Hin.
  - contradiction.
  - apply upgraded_resolved in Hup. subst evs.
    apply in_app_or in Hin as [[<- | [<- | [<- | []]]] | Hin]; cbn; auto.
    now apply IH.
  - discriminate.
Qed.

(** X11: every call [init] makes is for a step above the version it
    started from and at most the target: no step at or below the start
    version is constructed, run or rolled back, and none beyond the
    target. *)
Theorem init_steps_within_range overrideSchema store w r (s' : State) ev :
  init SQLite3 Postgres schemaModule overrideSchema roomStore userStore
       (mkState store w []) = (r, s') ->
  In ev (calls s') ->
  startVersion SQLite3 Postgres (mkState store w [] : State) < event_version ev
    <= targetOf overrideSchema.
Proof.
  intros Hinit Hin.
  destruct (init_run SQLite3 Postgres schemaModule roomStore userStore
              overrideSchema store w r s' Hinit) as [[_ Hnil] | Hmig].
  { rewrite Hnil in Hin. contradiction. }
  eapply migrated_versions; eassumption.
Qed.

(** X12: in every run of [init], also one that fails, the steps are
    constructed one version after the other from the start version + 1,
    none twice and none skipped, and the versions handed to
    [setSchemaVersion] are the same versions, short of the last step at
    most. *)
Theorem init_versions_consecutive overrideSchema store w r (s' : State) :
  init SQLite3 Postgres schemaModule overrideSchema roomStore userStore
       (mkState store w []) = (r, s') ->
  let start := startVersion SQLite3 Postgres (mkState store w [] : State) in
  exists n m,
    0 <= n <= m /\ m <= n + 1 /\ m <= Z.max 0 (targetOf overrideSchema - start) /\
    setVersions (calls s') = seqZ (start + 1) n /\
    newVersions (calls s') = seqZ (start + 1) m.
Proof.
  intros Hinit. cbn zeta.
  destruct (init_run SQLite3 Postgres schemaModule roomStore userStore
              overrideSchema store w r s' Hinit) as [[_ Hnil] | Hmig].
  - exists 0, 0. rewrite Hnil. repeat split; try lia; now rewrite seqZ_nil.
  - eapply migrated_progress; eassumption.
Qed.

(** X13: a rollback is the last thing [init] calls: it comes right after
    the failed forward action of the same step, nothing is called after
    it, and the version of that step is never handed to
    [setSchemaVersion]. *)
Theorem init_rollback_is_last overrideSchema store w r (s' : State) pre k b post :
  init SQLite3 Postgres schemaModule overrideSchema roomStore userStore
       (mkState store w []) = (r, s') ->
  calls s' = pre ++ EvRollBack k b :: post ->
  (exists pre', pre = pre' ++ [EvRun k false]) /\
  post = [] /\
  ~ In (EvSetSchemaVersion k) (calls s').
Proof.
  intros Hinit Heq.
  destruct (init_run SQLite3 Postgres schemaModule roomStore userStore
              overrideSchema store w r s' Hinit) as [[_ Hnil] | Hmig].
  { rewrite Hnil in Heq. destruct pre; discriminate. }
  eapply migrated_rollback_last; eassumption.
Qed.

(** X14: whenever [init] resolves, every version from the start version
    + 1 to the target was handed to [setSchemaVersion], once and in
    order, no forward action failed and no rollback was called. *)
Theorem init_resolved_means_complete overrideSchema store w (s' : State) :
  init SQLite3 Postgres schemaModule overrideSchema roomStore userStore
       (mkState store w []) = (Resolved tt, s') ->
  let start := startVersion SQLite3 Postgres (mkState store w [] : State) in
  setVersions (calls s') = seqZ (start + 1) (targetOf overrideSchema - start) /\
  (forall k, ~ In (EvRun k false) (calls s')) /\
  (forall k b, ~ In (EvRollBack k b) (calls s')).
Proof.
  intros Hinit. cbn zeta.
  destruct (init_run SQLite3 Postgres schemaModule roomStore userStore
              overrideSchema store w _ s' Hinit) as [[Hr _] | Hmig];
    [discriminate |].
  repeat split.
  - eapply migrated_resolved; eassumption.
  - intros k Hin. pose proof (migrated_resolved_clean _ _ _ Hmig _ Hin). discriminate.
  - intros k b Hin. exact (migrated_resolved_clean _ _ _ Hmig _ Hin).
Qed.

(** X15: [init] stops at the first forward action that fails: no run has
    two failed forward actions. *)
Theorem init_single_failure overrideSchema store w r (s' : State) k k' :
  init SQLite3 Postgres schemaModule overrideSchema roomStore userStore
       (mkState store w []) = (r, s') ->
  In (EvRun k false) (calls s') ->
  In (EvRun k' false) (calls s') ->
  k = k'.
Proof.
  intros Hinit Hk Hk'.
  destruct (init_run SQLite3 Postgres schemaModule roomStore userStore
              overrideSchema store w r s' Hinit) as [[_ Hnil] | Hmig].
  { rewrite Hnil in Hk. contradiction. }
  destruct (migrated_failed schemaModule _ _ _ _ _ _ _ Hmig Hk) as (Hle & _).
  destruct (migrated_failed schemaModule _ _ _ _ _ _ _ Hmig Hk') as (Hle' & _).
  specialize (Hle _ Hk'). specialize (Hle' _ Hk). cbn in Hle, Hle'. lia.
Qed.

(** *** The other methods *)

(** X16: [createTable] resolves when the statement does; when the
    statement is rejected the connector's error is not passed on: the
    rejection is a new [Error] whose message names the table and quotes
    the connector's error. *)
Theorem createTable_wraps_error statement tablename (s : State) :
  let reply := on_db (fun conn => Connector.Exec conn statement) s in
  createTable statement tablename s =
    (match fst reply with
     | Resolved _ => Resolved tt
     | Rejected err =>
         Rejected (Error (String.append "Error creating '"
                            (String.append tablename
                               (String.append "': " (toString err)))))
     end,
     snd reply).
Proof.
  cbn zeta. unfold createTable, try_catch, throw.
  destruct (on_db _ s) as [[[] | err] s1]; reflexivity.
Qed.

(** X17: on a store that was never opened, [close], [getToken],
    [addUserToken] and [deleteUserToken] are rejected with a [TypeError],
    [createTable] with an [Error] naming the table, and
    [getSchemaVersion] resolves with [0]; none of them changes anything. *)
Theorem unopened_store (s : State) userId discordId token statement tablename :
  db (this s) = None ->
  (exists ex, close s = (Rejected ex, s) /\ err_name ex = "TypeError") /\
  (exists ex, getToken discordId s = (Rejected ex, s) /\ err_name ex = "TypeError") /\
  (exists ex, addUserToken userId discordId token s = (Rejected ex, s) /\
              err_name ex = "TypeError") /\
  (exists ex, deleteUserToken discordId s = (Rejected ex, s) /\
              err_name ex = "TypeError") /\
  (exists ex, createTable statement tablename s = (Rejected ex, s) /\
              err_name ex = "Error") /\
  getSchemaVersion s = (Resolved 0, s).
Proof.
  intros Hdb.
  unfold close, getToken, addUserToken, deleteUserToken, createTable,
    getSchemaVersion, all_on_db, try_catch, bind, on_db, throw, ret.
  rewrite Hdb. repeat split; eexists; split; reflexivity.
Qed.

(** X18: [addUserToken] issues both inserts whatever becomes of the
    first: the world afterwards is the one the two statements leave, one
    after the other, also when the first was rejected.  It resolves only
    when both did, and an error it is rejected with is the error of one
    of the two. *)
Theorem addUserToken_issues_both userId discordId token conn (s : State) :
  db (this s) = Some conn ->
  let first :=
    Connector.Run conn INSERT_USER_ID
      [("discordId", SqlText discordId); ("userId", SqlText userId)] (world s) in
  let second :=
    Connector.Run conn INSERT_TOKEN
      [("discordId", SqlText discordId); ("token", SqlText token)] (snd first) in
  world (snd (addUserToken userId discordId token s)) = snd second /\
  (fst (addUserToken userId discordId token s) = Resolved tt <->
   fst first = Resolved tt /\ fst second = Resolved tt) /\
  (forall ex, fst (addUserToken userId discordId token s) = Rejected ex ->
              fst first = Rejected ex \/ fst second = Rejected ex).
Proof.
  intros Hdb. cbn zeta.
  unfold addUserToken, all_on_db, try_catch, throw. rewrite Hdb.
  destruct (Connector.Run conn INSERT_USER_ID _ (world s)) as [[[] | ex1] w1]; cbn;
    destruct (Connector.Run conn INSERT_TOKEN _ w1) as [[[] | ex2] w2]; cbn;
    (split; [reflexivity |]); split;
    try (split; [intros; try discriminate; auto | intros [? ?]; try discriminate; auto]);
    intros ex Hex; try discriminate; auto.
Qed.

(** X19: [deleteUserToken] likewise issues both deletes whatever becomes
    of the first, resolves only when both did, and is rejected with the
    error of one of the two. *)
Theorem deleteUserToken_issues_both discordId conn (s : State) :
  db (this s) = Some conn ->
  let first :=
    Connector.Run conn DELETE_USER_ID [("$id", SqlText discordId)] (world s) in
  let second :=
    Connector.Run conn DELETE_TOKEN [("$id", SqlText discordId)] (snd first) in
  world (snd (deleteUserToken discordId s)) = snd second /\
  (fst (deleteUserToken discordId s) = Resolved tt <->
   fst first = Resolved tt /\ fst second = Resolved tt) /\
  (forall ex, fst (deleteUserToken discordId s) = Rejected ex ->
              fst first = Rejected ex \/ fst second = Rejected ex).
Proof.
  intros Hdb. cbn zeta.
  unfold deleteUserToken, all_on_db, try_catch, throw. rewrite Hdb.
  destruct (Connector.Run conn DELETE_USER_ID _ (world s)) as [[[] | ex1] w1]; cbn;
    destruct (Connector.Run conn DELETE_TOKEN _ w1) as [[[] | ex2] w2]; cbn;
    (split; [reflexivity |]); split;
    try (split; [intros; try discriminate; auto | intros [? ?]; try discriminate; auto]);
    intros ex Hex; try discriminate; auto.
Qed.

(** X20: [getToken] hands on what the connector gives: the token of the
    row found, and the connector's own error when the query is rejected
    (where [getSchemaVersion] would answer [0]). *)
Theorem getToken_found_or_rejected discordId (s : State) :
  let reply :=
    on_db (fun conn =>
             Connector.Get conn SELECT_TOKEN [("discordId", SqlText discordId)]) s in
  getToken discordId s =
    (match fst reply with
     | Resolved (Some row) => Resolved (row_token row)
     | Resolved None => Resolved EmptyString
     | Rejected ex => Rejected ex
     end,
     snd reply).
Proof.
  cbn zeta. unfold getToken, try_catch, bind, ret, throw.
  destruct (on_db _ s) as [[[row |] | ex] s1]; reflexivity.
Qed.

End MoreFacts.

(** ** More runs on concrete inputs *)

(** The in-memory database has no file to copy. *)
Lemma backupDatabase_not_supported_witness :
  backupDatabase (new_DiscordStore (inr ":memory:") : DiscordStore unit)
                 (<["discord.db" := [Byte.x01]]> ∅)
    = (Resolved JsUndefined, <["discord.db" := [Byte.x01]]> ∅).
Proof.
  apply backupDatabase_not_supported. right. reflexivity.
Defined.

Lemma backupDatabase_other_files_untouched_witness :
  let store : DiscordStore unit := new_DiscordStore (inr "discord.db") in
  let fs : FileSystem :=
    <["discord.db" := [Byte.x02]]> (<["registration.yaml" := [Byte.x07]]> ∅) in
  (snd (backupDatabase store fs) !! "discord.db" = fs !! "discord.db" /\
   forall path,
     path <> String.append "discord.db" ".backup" ->
     snd (backupDatabase store fs) !! path = fs !! path) /\
  (backupDatabase_finished store fs !! "discord.db" = fs !! "discord.db" /\
   forall path,
     path <> String.append "discord.db" ".backup" ->
     backupDatabase_finished store fs !! path = fs !! path).
Proof.
  cbn zeta. apply backupDatabase_other_files_untouched. reflexivity.
Defined.

(** A first backup: made once the streams are through. *)
Lemma backupDatabase_saves_database_witness :
  let store : DiscordStore unit := new_DiscordStore (inr "discord.db") in
  let fs : FileSystem := <["discord.db" := [Byte.x02]]> ∅ in
  backupDatabase_finished store fs !! String.append "discord.db" ".backup"
    = Some [Byte.x02].
Proof.
  cbn zeta.
  apply (backupDatabase_saves_database
           (new_DiscordStore (inr "discord.db") : DiscordStore unit)
           "discord.db" [Byte.x02]).
  - reflexivity.
  - discriminate.
  - vm_compute. reflexivity.
Defined.

(** A database and an older backup: the second run changes nothing more. *)
Lemma backupDatabase_idempotent_witness :
  let store : DiscordStore unit := new_DiscordStore (inr "discord.db") in
  let fs : FileSystem :=
    <["discord.db" := [Byte.x02]]> (<["discord.db.backup" := [Byte.x01]]> ∅) in
  snd (backupDatabase store (snd (backupDatabase store fs)))
    = snd (backupDatabase store fs).
Proof.
  cbn zeta.
  apply (backupDatabase_idempotent
           (new_DiscordStore (inr "discord.db") : DiscordStore unit) "discord.db").
  - reflexivity.
  - exists [Byte.x02]. vm_compute. reflexivity.
  - exists [Byte.x01]. vm_compute. reflexivity.
Defined.

(** A backup is in place and the database file is gone: the promise is
    rejected. *)
Lemma backupDatabase_outcome_witness :
  let store : DiscordStore unit := new_DiscordStore (inr "discord.db") in
  let fs : FileSystem := <["discord.db.backup" := [Byte.x01]]> ∅ in
  fst (backupDatabase store fs) =
    match fs !! String.append "discord.db" ".backup", fs !! "discord.db" with
    | None, _ => Resolved JsTrue
    | Some _, Some _ => Resolved JsUndefined
    | Some _, None => Rejected ENOENT
    end.
Proof.
  cbn zeta. apply backupDatabase_outcome.
  - reflexivity.
  - discriminate.
Defined.

(** With a file name and a connection string configured, the SQLite
    connector of the file is opened. *)
Lemma openDatabase_selects_connector_witness :
  let cfg := mkConfig (Some "discord.db") (Some "postgres://bridge") in
  let conn := MemoryDb.connector "discord.db" in
  let s : State MemoryDb.world nat nat :=
    mkState (mkStore cfg None None None) (MemoryDb.mk (Some [7]) []) [] in
  let s1 : State MemoryDb.world nat nat :=
    mkState (mkStore cfg (Some conn) (Some (mkDbRoomStore conn))
                     (Some (mkDbUserStore conn)))
            (MemoryDb.mk (Some [7]) []) [] in
  exists conn',
    db (this s1) = Some conn' /\
    get_roomStore (this s1) = Some (mkDbRoomStore conn') /\
    get_userStore (this s1) = Some (mkDbUserStore conn') /\
    config (this s1) = config (this s) /\
    (forall file, filename (config (this s)) = Some file ->
                  file <> EmptyString -> conn' = MemoryDb.connector file) /\
    (forall str, truthy (filename (config (this s))) = false ->
                 connString (config (this s)) = Some str ->
                 str <> EmptyString -> conn' = MemoryDb.connector str).
Proof.
  cbn zeta.
  apply (openDatabase_selects_connector MemoryDb.connector MemoryDb.connector).
  reflexivity.
Defined.

(** A store without configuration: [openDatabase] and [init] are rejected. *)
Lemma openDatabase_rejects_with_fixed_error_witness :
  let s : State MemoryDb.world nat nat :=
    mkState (new_DiscordStore (inl (mkConfig None None))) (MemoryDb.mk None []) [] in
  COULD_NOT_OPEN
    = Error "Couldn't open database. The appservice won't be able to continue." /\
  get_roomStore (this s) = get_roomStore (this s) /\
  get_userStore (this s) = get_userStore (this s) /\
  calls s = calls s.
Proof.
  cbn zeta.
  apply (openDatabase_rejects_with_fixed_error MemoryDb.connector MemoryDb.connector
           (mkState (new_DiscordStore (inl (mkConfig None None))) (MemoryDb.mk None []) [])
           (mkState (new_DiscordStore (inl (mkConfig None None))) (MemoryDb.mk None []) [])
           COULD_NOT_OPEN).
  reflexivity.
Defined.

Lemma openDatabase_unconfigured_witness :
  let s : State MemoryDb.world nat nat :=
    mkState (new_DiscordStore (inl (mkConfig None (Some EmptyString))))
            (MemoryDb.mk None []) [] in
  openDatabase MemoryDb.connector MemoryDb.connector s
    = (Rejected (Error "Couldn't open database. The appservice won't be able to continue."),
       s).
Proof.
  cbn zeta. apply openDatabase_unconfigured; reflexivity.
Defined.

Lemma init_open_failure_witness :
  let s : State MemoryDb.world nat nat :=
    mkState (new_DiscordStore (inl (mkConfig None None))) (MemoryDb.mk None []) [] in
  init MemoryDb.connector MemoryDb.connector (MemoryDb.modules 0 true) 0
       (Some 1%nat) (Some 2%nat) s
    = (Rejected (Error "Couldn't open database. The appservice won't be able to continue."),
       s) /\
  calls s = calls s.
Proof.
  cbn zeta.
  apply (init_open_failure MemoryDb.connector MemoryDb.connector (MemoryDb.modules 0 true)
           (Some 1%nat) (Some 2%nat) 0 _ _ COULD_NOT_OPEN).
  reflexivity.
Defined.

(** A database at version 12 with target 10 is left alone. *)
Lemma init_already_current_witness :
  let s0 : State MemoryDb.world nat nat :=
    mkState (MemoryDb.store "discord.db") (MemoryDb.mk (Some [12]) []) [] in
  let s2 : State MemoryDb.world nat nat :=
    mkState (MemoryDb.opened "discord.db") (MemoryDb.mk (Some [12]) []) [] in
  init MemoryDb.connector MemoryDb.connector (MemoryDb.modules 0 true) 0
       (Some 1%nat) (Some 2%nat) s0 = (Resolved tt, s2) /\
  calls s2 = calls s0.
Proof.
  cbn zeta.
  apply (init_already_current MemoryDb.connector MemoryDb.connector
           (MemoryDb.modules 0 true) (Some 1%nat) (Some 2%nat) 0
           _ (mkState (MemoryDb.opened "discord.db") (MemoryDb.mk (Some [12]) []) [])
           _ 12).
  - reflexivity.
  - reflexivity.
  - unfold targetOf, CURRENT_SCHEMA. cbn. lia.
Defined.

Lemma init_steps_within_range_witness :
  let run := MemoryDb.init_on 0 true 0 (MemoryDb.mk (Some [7]) []) in
  In (EvRun 9 true) (calls (snd run)) /\
  startVersion MemoryDb.connector MemoryDb.connector
    (mkState (MemoryDb.store "discord.db") (MemoryDb.mk (Some [7]) []) []
     : State MemoryDb.world nat nat)
    < event_version (EvRun 9 true : Event nat nat) <= targetOf 0.
Proof.
  cbn zeta.
  assert (Hin : In (EvRun 9 true)
                   (calls (snd (MemoryDb.init_on 0 true 0 (MemoryDb.mk (Some [7]) []))))).
  { vm_compute. repeat (first [left; reflexivity | right]). }
  split; [exact Hin |].
  exact (init_steps_within_range MemoryDb.connector MemoryDb.connector
           (MemoryDb.modules 0 true) (Some 1%nat) (Some 2%nat) 0
           (MemoryDb.store "discord.db") (MemoryDb.mk (Some [7]) []) _ _ _
           (surjective_pairing _) Hin).
Defined.

(** A run from version 7 whose step 9 fails: steps 8 and 9 are
    constructed, version 8 is written. *)
Lemma init_versions_consecutive_witness :
  let run := MemoryDb.init_on 9 true 0 (MemoryDb.mk (Some [7]) []) in
  let start := startVersion MemoryDb.connector MemoryDb.connector
                 (mkState (MemoryDb.store "discord.db") (MemoryDb.mk (Some [7]) []) []
                  : State MemoryDb.world nat nat) in
  exists n m,
    0 <= n <= m /\ m <= n + 1 /\ m <= Z.max 0 (targetOf 0 - start) /\
    setVersions (calls (snd run)) = seqZ (start + 1) n /\
    newVersions (calls (snd run)) = seqZ (start + 1) m.
Proof.
  cbn zeta.
  exact (init_versions_consecutive MemoryDb.connector MemoryDb.connector
           (MemoryDb.modules 9 true) (Some 1%nat) (Some 2%nat) 0
           (MemoryDb.store "discord.db") (MemoryDb.mk (Some [7]) []) _ _
           (surjective_pairing _)).
Defined.

Lemma init_rollback_is_last_witness :
  let run := MemoryDb.init_on 8 true 0 (MemoryDb.mk (Some [7]) []) in
  calls (snd run)
    = [EvNew 8 [ArgRoomStore (Some 1%nat)]; EvRun 8 false] ++ EvRollBack 8 true :: [] /\
  (exists pre' : list (Event nat nat),
     [EvNew 8 [ArgRoomStore (Some 1%nat)]; EvRun 8 false] = pre' ++ [EvRun 8 false]) /\
  ([] : list (Event nat nat)) = [] /\
  ~ In (EvSetSchemaVersion 8) (calls (snd run)).
Proof.
  cbn zeta.
  assert (Hcalls : calls (snd (MemoryDb.init_on 8 true 0 (MemoryDb.mk (Some [7]) [])))
                   = [EvNew 8 [ArgRoomStore (Some 1%nat)]; EvRun 8 false]
                       ++ EvRollBack 8 true :: []).
  { vm_compute. reflexivity. }
  split; [exact Hcalls |].
  exact (init_rollback_is_last MemoryDb.connector MemoryDb.connector
           (MemoryDb.modules 8 true) (Some 1%nat) (Some 2%nat) 0
           (MemoryDb.store "discord.db") (MemoryDb.mk (Some [7]) []) _ _
           _ 8 true _ (surjective_pairing _) Hcalls).
Defined.

Lemma init_resolved_means_complete_witness :
  let run := MemoryDb.init_on 0 true 0 (MemoryDb.mk (Some [7]) []) in
  let start := startVersion MemoryDb.connector MemoryDb.connector
                 (mkState (MemoryDb.store "discord.db") (MemoryDb.mk (Some [7]) []) []
                  : State MemoryDb.world nat nat) in
  setVersions (calls (snd run)) = seqZ (start + 1) (targetOf 0 - start) /\
  (forall k, ~ In (EvRun k false) (calls (snd run))) /\
  (forall k b, ~ In (EvRollBack k b) (calls (snd run))).
Proof.
  cbn zeta.
  apply (init_resolved_means_complete MemoryDb.connector MemoryDb.connector
           (MemoryDb.modules 0 true) (Some 1%nat) (Some 2%nat) 0
           (MemoryDb.store "discord.db") (MemoryDb.mk (Some [7]) [])).
  vm_compute. reflexivity.
Defined.

Lemma init_single_failure_witness :
  let run := MemoryDb.init_on 9 false 0 (MemoryDb.mk (Some [7]) []) in
  In (EvRun 9 false) (calls (snd run)) /\ 9 = 9.
Proof.
  cbn zeta.
  assert (Hin : In (EvRun 9 false)
                   (calls (snd (MemoryDb.init_on 9 false 0 (MemoryDb.mk (Some [7]) []))))).
  { vm_compute. repeat (first [left; reflexivity | right]). }
  split; [exact Hin |].
  exact (init_single_failure MemoryDb.connector MemoryDb.connector
           (MemoryDb.modules 9 false) (Some 1%nat) (Some 2%nat) 0
           (MemoryDb.store "discord.db") (MemoryDb.mk (Some [7]) []) _ _ 9 9
           (surjective_pairing _) Hin Hin).
Defined.

Lemma unopened_store_witness :
  let s : State TokenDb.world nat nat :=
    mkState (new_DiscordStore (inr "discord.db")) (TokenDb.mk [] []) [] in
  getSchemaVersion s = (Resolved 0, s).
Proof.
  cbn zeta.
  apply (unopened_store
           (mkState (new_DiscordStore (inr "discord.db")) (TokenDb.mk [] []) [])
           "@alice:example.org" "123" "secret" "CREATE TABLE emoji (id TEXT)" "emoji").
  reflexivity.
Defined.

(** The Discord id [123] is bound to a user already but has no token: the
    first insert is rejected, the token row is written all the same. *)
Lemma addUserToken_issues_both_witness :
  let s : State TokenDb.world nat nat :=
    mkState (TokenDb.opened "discord.db")
            (TokenDb.mk [("123", "@alice:example.org")] []) [] in
  let run := addUserToken "@bob:example.org" "123" "secret" s in
  fst run = Rejected TokenDb.constraint_failed /\
  world (snd run)
    = TokenDb.mk [("123", "@alice:example.org")] [("123", "secret")].
Proof.
  cbn zeta.
  destruct (addUserToken_issues_both "@bob:example.org" "123" "secret"
              (TokenDb.connector "discord.db")
              (mkState (TokenDb.opened "discord.db")
                       (TokenDb.mk [("123", "@alice:example.org")] []) []
               : State TokenDb.world nat nat)
              eq_refl) as (Hworld & _ & _).
  split; [reflexivity | exact Hworld].
Defined.

Lemma deleteUserToken_issues_both_witness :
  let s : State TokenDb.world nat nat :=
    mkState (TokenDb.opened "discord.db")
            (TokenDb.mk [("123", "@alice:example.org")] [("123", "secret")]) [] in
  world (snd (deleteUserToken "123" s)) = TokenDb.mk [] [].
Proof.
  cbn zeta.
  destruct (deleteUserToken_issues_both "123"
              (TokenDb.connector "discord.db")
              (mkState (TokenDb.opened "discord.db")
                       (TokenDb.mk [("123", "@alice:example.org")] [("123", "secret")]) []
               : State TokenDb.world nat nat)
              eq_refl) as (Hworld & _ & _).
  exact Hworld.
Defined.
